(** * Mailcow delivery report: log-line classifier and aggregator

    Shallow embedding of [archive/mailcow_email_delivery_report_up_the_shit.py]
    (the most capable variant of the report generator) and the properties
    its specification states about it.

    Modelling conventions.
    - A Python [str] is a [string]; a character is an 8-bit code point
      (Latin-1), and the character classes of [re], [str.isdigit],
      [str.split] and [str.lower] are the interpreter's tables restricted
      to code points below 256.
    - [None] is [None : option _]; Python truthiness tests ([if x:]) are
      written out ([truthy]).
    - An exception that escapes a function is a [Raise] result.
    - [datetime.now()] is an explicit argument [now].
    - [int(s)] refuses a literal of more than 4300 decimal digits, the
      interpreter's default limit ([sys.int_info.default_max_str_digits]);
      [str(n)] has the same limit, which no integer of the program
      reaches.
    - The per-message dictionaries have the fixed key set
      from/to/size/status/sg/time and are a record; [messages] is an
      insertion-ordered association list, as Python dictionaries are. *)

From Stdlib Require Import String Ascii List Bool Arith NArith ZArith Lia.
From Stdlib Require Import DecimalString.
Import ListNotations.
Open Scope string_scope.
Open Scope bool_scope.

(** ** Characters and strings as Python sees them *)

Module PyStr.

Definition code (c : ascii) : N := N_of_ascii c.

Definition between (lo hi : N) (c : ascii) : bool :=
  ((lo <=? code c) && (code c <=? hi))%N.

(** [0-9], which is also [\d] below code point 256. *)
Definition is_dec (c : ascii) : bool := between 48 57 c.

(** [A-Z] and [a-z]. *)
Definition is_upper_az (c : ascii) : bool := between 65 90 c.
Definition is_lower_az (c : ascii) : bool := between 97 122 c.

(** [A-F0-9]. *)
Definition is_hex_upper (c : ascii) : bool := between 65 70 c || is_dec c.

(** [\s] of [re] and the separators of [str.split()]. *)
Definition is_space (c : ascii) : bool :=
  between 9 13 c || between 28 32 c
  || (code c =? 133)%N || (code c =? 160)%N.

(** Whitespace that [int()] strips around a literal. *)
Definition is_int_space (c : ascii) : bool :=
  between 9 13 c || (code c =? 32)%N
  || (code c =? 133)%N || (code c =? 160)%N.

(** [\w] of [re]: alphanumerics (letters, digits, numerics) and [_]. *)
Definition is_word (c : ascii) : bool :=
  is_dec c || is_upper_az c || is_lower_az c || (code c =? 95)%N
  || (code c =? 170)%N || (code c =? 178)%N || (code c =? 179)%N
  || (code c =? 181)%N || (code c =? 185)%N || (code c =? 186)%N
  || between 188 190 c || between 192 214 c || between 216 246 c
  || between 248 255 c.

(** [c.isdigit()]: decimal digits and the superscript digits. *)
Definition isdigit_char (c : ascii) : bool :=
  is_dec c || (code c =? 178)%N || (code c =? 179)%N || (code c =? 185)%N.

(** [c.lower()]. *)
Definition lower_char (c : ascii) : ascii :=
  if is_upper_az c
     || (between 192 222 c && negb (code c =? 215)%N)
  then ascii_of_N (code c + 32)
  else c.

Fixpoint lower (s : string) : string :=
  match s with
  | EmptyString => EmptyString
  | String c s' => String (lower_char c) (lower s')
  end.

Fixpoint forallb_str (f : ascii -> bool) (s : string) : bool :=
  match s with
  | EmptyString => true
  | String c s' => f c && forallb_str f s'
  end.

(** [s.isdigit()]: non-empty and every character a digit. *)
Definition isdigit (s : string) : bool :=
  match s with
  | EmptyString => false
  | _ => forallb_str isdigit_char s
  end.

(** [if s:] for a string. *)
Definition nonempty (s : string) : bool :=
  match s with EmptyString => false | _ => true end.

(** [if x:] for a value that is [None] or a string. *)
Definition truthy (o : option string) : bool :=
  match o with Some s => nonempty s | None => false end.

(** [x or d] for a value that is [None] or a string. *)
Definition or_else (o : option string) (d : string) : string :=
  match o with
  | Some s => if nonempty s then s else d
  | None => d
  end.

(** [sub in s]. *)
Fixpoint contains (sub s : string) : bool :=
  prefix sub s
  || match s with
     | EmptyString => false
     | String _ s' => contains sub s'
     end.

(** [s.split()]: maximal runs of non-whitespace characters. *)
Fixpoint split_ws_aux (cur : string) (s : string) : list string :=
  match s with
  | EmptyString => if nonempty cur then [cur] else []
  | String c s' =>
      if is_space c
      then (if nonempty cur then [cur] else []) ++ split_ws_aux "" s'
      else split_ws_aux (cur ++ String c "") s'
  end.

Definition split_ws (s : string) : list string := split_ws_aux "" s.

(** [s.split(sep)] for a one-character separator: never empty. *)
Fixpoint split_on_aux (sep : ascii) (cur : string) (s : string) : list string :=
  match s with
  | EmptyString => [cur]
  | String c s' =>
      if Ascii.eqb c sep
      then cur :: split_on_aux sep "" s'
      else split_on_aux sep (cur ++ String c "") s'
  end.

Definition split_on (sep : ascii) (s : string) : list string :=
  split_on_aux sep "" s.

(** Value of a run of decimal digits. *)
Definition digit_val (c : ascii) : N := (code c - 48)%N.

Fixpoint digits_value_aux (acc : N) (s : string) : N :=
  match s with
  | EmptyString => acc
  | String c s' => digits_value_aux (acc * 10 + digit_val c)%N s'
  end.

Definition digits_value (s : string) : N := digits_value_aux 0 s.

End PyStr.

(** ** Exceptions *)

Inductive exn : Type :=
| ValueError
| OverflowError.

Inductive result (A : Type) : Type :=
| Ok (a : A)
| Raise (e : exn).

Arguments Ok {A} a.
Arguments Raise {A} e.

Definition bind {A B : Type} (r : result A) (k : A -> result B) : result B :=
  match r with
  | Ok a => k a
  | Raise e => Raise e
  end.

Notation "x <- e ;; k" := (bind e (fun x => k))
  (at level 61, e at next level, right associativity).

(** [try: body except ValueError: handler]. *)
Definition except_ValueError {A : Type} (body : result A) (handler : result A)
  : result A :=
  match body with
  | Raise ValueError => handler
  | r => r
  end.

(** ** [int(s)] on a string *)

Module PyInt.
Import PyStr.

Fixpoint lstrip (s : string) : string :=
  match s with
  | String c s' => if is_int_space c then lstrip s' else s
  | EmptyString => EmptyString
  end.

Fixpoint rstrip (s : string) : string :=
  match s with
  | EmptyString => EmptyString
  | String c s' =>
      let r := rstrip s' in
      if nonempty r then String c r
      else if is_int_space c then EmptyString else String c EmptyString
  end.

(** Digits, with single underscores allowed between two digits. *)
Fixpoint int_body (acc : N) (after_digit : bool) (s : string) : option N :=
  match s with
  | EmptyString => if after_digit then Some acc else None
  | String c s' =>
      if is_dec c then int_body (acc * 10 + digit_val c)%N true s'
      else if Ascii.eqb c "_" && after_digit then int_body acc false s'
      else None
  end.

Definition int_literal (s : string) : option Z :=
  match s with
  | String "+" r => option_map Z.of_N (int_body 0 false r)
  | String "-" r => option_map (fun n => Z.opp (Z.of_N n)) (int_body 0 false r)
  | _ => option_map Z.of_N (int_body 0 false s)
  end.

(** [sys.int_info.default_max_str_digits]. *)
Definition max_str_digits : N := 4300.

(** The decimal digits of a literal; underscores and the sign do not
    count. *)
Fixpoint digit_count (s : string) : N :=
  match s with
  | EmptyString => 0%N
  | String c s' =>
      if is_dec c then N.succ (digit_count s') else digit_count s'
  end.

(** [int(s)]: a [ValueError] for what is no literal, and for a literal
    of more digits than the limit. *)
Definition py_int (s : string) : result Z :=
  let literal := rstrip (lstrip s) in
  match int_literal literal with
  | Some z =>
      if (max_str_digits <? digit_count literal)%N then Raise ValueError
      else Ok z
  | None => Raise ValueError
  end.

(** [str(z)] for an integer. *)
Definition py_str (z : Z) : string := NilEmpty.string_of_int (Z.to_int z).

End PyInt.

(** ** Regular expressions

    The patterns of the program use literals, [\b], and greedy repetition
    of a single character class; each is a combinator applied to the
    continuation that matches the rest of the pattern, so that a failure
    of the rest backtracks into the repetition, as [re] does.  A
    continuation receives the character before the current position
    (for [\b]) and the text that remains. *)

Module Re.
Import PyStr.

Section Matcher.
Context {R : Type}.

Definition cont : Type := option ascii -> string -> option R.

Definition accept (r : R) : cont := fun _ _ => Some r.

Definition lit (c : ascii) (k : cont) : cont :=
  fun prev s =>
    match s with
    | String a s' => if Ascii.eqb a c then k (Some a) s' else None
    | EmptyString => None
    end.

Fixpoint lits (l : string) (k : cont) : cont :=
  match l with
  | EmptyString => k
  | String c l' => lit c (lits l' k)
  end.

Definition word_opt (o : option ascii) : bool :=
  match o with Some c => is_word c | None => false end.

Definition head (s : string) : option ascii :=
  match s with String a _ => Some a | EmptyString => None end.

(** [\b]: exactly one side of the position is a word character. *)
Definition wordb (k : cont) : cont :=
  fun prev s => if xorb (word_opt prev) (word_opt (head s)) then k prev s else None.

Definition below (hi : option nat) (n : nat) : bool :=
  match hi with Some h => Nat.ltb n h | None => true end.

(** [cls{lo,hi}], greedy: take one more character while allowed and try
    the rest from there; fall back to stopping here. [n] characters,
    [acc], are already taken; the continuation receives the text taken. *)
Fixpoint rep_go (cls : ascii -> bool) (lo : nat) (hi : option nat)
    (n : nat) (acc : string) (k : string -> cont)
    (prev : option ascii) (s : string) : option R :=
  let stop := if Nat.leb lo n then k acc prev s else None in
  match s with
  | String a s' =>
      if cls a && below hi n then
        match rep_go cls lo hi (S n) (acc ++ String a "") k (Some a) s' with
        | Some r => Some r
        | None => stop
        end
      else stop
  | EmptyString => stop
  end.

Definition rep (cls : ascii -> bool) (lo : nat) (hi : option nat)
    (k : string -> cont) : cont :=
  rep_go cls lo hi 0 "" k.

(** [re.search]: the match at the leftmost position that has one. *)
Fixpoint search_from (p : cont) (prev : option ascii) (s : string) : option R :=
  match p prev s with
  | Some r => Some r
  | None =>
      match s with
      | String a s' => search_from p (Some a) s'
      | EmptyString => None
      end
  end.

Definition search (p : cont) (s : string) : option R := search_from p None s.

(** [re.match]: a match at the start of the string. *)
Definition match_start (p : cont) (s : string) : option R := p None s.

End Matcher.

Definition not_gt (c : ascii) : bool := negb (Ascii.eqb c ">").

End Re.

(** ** [datetime]: the parts of the library the program uses *)

Module Datetime.
Import PyStr.
Local Open Scope Z_scope.

Record datetime : Type := mkdt {
  year : Z; month : Z; day : Z; hour : Z; minute : Z; second : Z
}.

Definition is_leap (y : Z) : bool :=
  (y mod 4 =? 0) && (negb (y mod 100 =? 0) || (y mod 400 =? 0)).

Definition days_in_month (y m : Z) : Z :=
  if m =? 2 then (if is_leap y then 29 else 28)
  else if (m =? 4) || (m =? 6) || (m =? 9) || (m =? 11) then 30
  else 31.

Definition within (lo hi z : Z) : bool := (lo <=? z) && (z <=? hi).

(** The constructor takes C ints. *)
Definition fits_int (z : Z) : bool := within (-2147483648) 2147483647 z.

(** [datetime(y, m, d, h, mi, s)]. *)
Definition new (y m d h mi s : Z) : result datetime :=
  if negb (forallb fits_int [y; m; d; h; mi; s]) then Raise OverflowError
  else if within 1 9999 y && within 1 12 m && within 1 (days_in_month y m) d
          && within 0 23 h && within 0 59 mi && within 0 59 s
  then Ok (mkdt y m d h mi s)
  else Raise ValueError.

Definition as_list (d : datetime) : list Z :=
  [year d; month d; day d; hour d; minute d; second d].

Fixpoint lex_ge (a b : list Z) : bool :=
  match a, b with
  | x :: a', y :: b' => (y <? x) || ((x =? y) && lex_ge a' b')
  | _, _ => true
  end.

(** [a >= b]. *)
Definition ge (a b : datetime) : bool := lex_ge (as_list a) (as_list b).

Definition month_abbrs : list string :=
  ["Jan"; "Feb"; "Mar"; "Apr"; "May"; "Jun";
   "Jul"; "Aug"; "Sep"; "Oct"; "Nov"; "Dec"]%string.

Fixpoint index_of (s : string) (l : list string) (i : Z) : option Z :=
  match l with
  | [] => None
  | x :: l' => if String.eqb (lower x) s then Some i else index_of s l' (i + 1)
  end.

(** [datetime.strptime(s, '%b').month]: the whole of [s] is a month
    abbreviation, in any letter case. *)
Definition strptime_b_month (s : string) : result Z :=
  match index_of (lower s) month_abbrs 1 with
  | Some m => Ok m
  | None => Raise ValueError
  end.

(** [d.strftime('%b')]. *)
Definition strftime_b (d : datetime) : string :=
  nth (Z.to_nat (month d - 1)) month_abbrs ""%string.

(** The day before, at the same time of day; the calendar starts at
    year 1. *)
Definition prev_day (d : datetime) : result datetime :=
  if 1 <? day d then
    Ok (mkdt (year d) (month d) (day d - 1) (hour d) (minute d) (second d))
  else if 1 <? month d then
    Ok (mkdt (year d) (month d - 1) (days_in_month (year d) (month d - 1))
             (hour d) (minute d) (second d))
  else if 1 <? year d then
    Ok (mkdt (year d - 1) 12 31 (hour d) (minute d) (second d))
  else Raise OverflowError.

(** [d - timedelta(days=i)] for [i >= 0].  A [timedelta] too large to
    build also leaves the calendar, with the same exception. *)
Fixpoint minus_days (d : datetime) (i : nat) : result datetime :=
  match i with
  | O => Ok d
  | S i' => d' <- prev_day d ;; minus_days d' i'
  end.

End Datetime.

(** ** The line classifier *)

Import PyStr PyInt Re.
Abbreviation datetime := Datetime.datetime.

(** [re.search(r'\b([A-F0-9]{10,12})\b', line)], group 1. *)
Definition queue_id_re : cont (R := string) :=
  wordb (rep is_hex_upper 10 (Some 12) (fun g => wordb (accept g))).

Definition extract_queue_id (line : string) : option string :=
  search queue_id_re line.

(** The patterns [from=<(G)>] and [to=<(G)>], where the group [G] is
    [[^>]*], and [size=(\d+)]. *)
Definition from_re : cont (R := string) :=
  lits "from=<" (rep not_gt 0 None (fun g => lit ">" (accept g))).

Definition to_re : cont (R := string) :=
  lits "to=<" (rep not_gt 0 None (fun g => lit ">" (accept g))).

Definition size_re : cont (R := string) :=
  lits "size=" (rep is_dec 1 None (fun g => accept g)).

(** [extract_field(line, pattern)]: group 1 of the first match. *)
Definition extract_field (line : string) (pattern : cont (R := string))
  : option string :=
  search pattern line.

(** [r'([A-Z][a-z]{2})\s+(\d+)\s+(\d{2}:\d{2}:\d{2})'], groups 1 to 3. *)
Definition timestamp_re : cont (R := string * string * string) :=
  rep is_upper_az 1 (Some 1) (fun m1 =>
  rep is_lower_az 2 (Some 2) (fun m2 =>
  rep is_space 1 None (fun _ =>
  rep is_dec 1 None (fun d =>
  rep is_space 1 None (fun _ =>
  rep is_dec 2 (Some 2) (fun hh => lit ":" (
  rep is_dec 2 (Some 2) (fun mi => lit ":" (
  rep is_dec 2 (Some 2) (fun ss =>
  accept (m1 ++ m2, d, hh ++ ":" ++ mi ++ ":" ++ ss))))))))))).

(** Australian format: day month time. *)
Definition extract_timestamp (line : string) : result (option string) :=
  match search timestamp_re line with
  | Some (month, d, time) =>
      day <- py_int d ;;
      Ok (Some (py_str day ++ " " ++ month ++ " " ++ time))
  | None => Ok None
  end.

Definition is_blocked (line : string) : bool :=
  contains "NOQUEUE: reject" line
  || contains "NOQUEUE: filter" line
  || contains "milter-reject" line
  || contains "status=bounced" line
  || contains "status=deferred" line.

Definition is_sendgrid (line : string) : bool :=
  contains "smtp_via_transport_maps:smtp.sendgrid.net" line.

(** ** Date and time filters *)

(** [re.match(r'[A-Z][a-z]{2}', part)]. *)
Definition month_word_re : cont (R := unit) :=
  rep is_upper_az 1 (Some 1) (fun _ =>
  rep is_lower_az 2 (Some 2) (fun _ => accept tt)).

(** The loop over the words of the date. *)
Fixpoint date_parts (parts : list string) (num_part : option Z)
    (month_part : option string) : result (option Z * option string) :=
  match parts with
  | [] => Ok (num_part, month_part)
  | part :: rest =>
      if isdigit part && Nat.leb (String.length part) 2 then
        n <- py_int part ;; date_parts rest (Some n) month_part
      else
        match match_start month_word_re part with
        | Some _ => date_parts rest num_part (Some part)
        | None => date_parts rest num_part month_part
        end
  end.

(** [int(time_parts[i]) if len(time_parts) > i else 0]. *)
Definition time_part (time_parts : list string) (i : nat) : result Z :=
  match nth_error time_parts i with
  | Some p => py_int p
  | None => Ok 0%Z
  end.

Definition parse_date_time_for_comparison (now : datetime)
    (date_str : string) (time_str : option string)
  : result (option datetime) :=
  if negb (nonempty date_str) then Ok None
  else
    np <- date_parts (split_ws date_str) None None ;;
    match np with
    | (Some num_part, Some month_part) =>
        if negb (negb (num_part =? 0)%Z && nonempty month_part) then Ok None
        else
          let year := Datetime.year now in
          month_num <- Datetime.strptime_b_month month_part ;;
          hms <- (if truthy time_str then
                    let time_parts :=
                      split_on ":" (or_else time_str "") in
                    hour <- time_part time_parts 0 ;;
                    minute <- time_part time_parts 1 ;;
                    second <- time_part time_parts 2 ;;
                    Ok (hour, minute, second)
                  else Ok (0, 0, 0)%Z) ;;
          let '(hour, minute, second) := hms in
          except_ValueError
            (dt <- Datetime.new year month_num num_part hour minute second ;;
             Ok (Some dt))
            (Ok None)
    | _ => Ok None
    end.

(** [r'([A-Z][a-z]{2})\s+(\d+)\s+(\d{2}):(\d{2}):(\d{2})'], groups 1 to 5. *)
Definition line_datetime_re
  : cont (R := string * string * string * string * string) :=
  rep is_upper_az 1 (Some 1) (fun m1 =>
  rep is_lower_az 2 (Some 2) (fun m2 =>
  rep is_space 1 None (fun _ =>
  rep is_dec 1 None (fun d =>
  rep is_space 1 None (fun _ =>
  rep is_dec 2 (Some 2) (fun hh => lit ":" (
  rep is_dec 2 (Some 2) (fun mi => lit ":" (
  rep is_dec 2 (Some 2) (fun ss =>
  accept (m1 ++ m2, d, hh, mi, ss))))))))))).

Definition parse_timestamp_from_line (now : datetime) (line : string)
  : result (option datetime) :=
  match search line_datetime_re line with
  | None => Ok None
  | Some (month_str, d, hh, mi, ss) =>
      day <- py_int d ;;
      hour <- py_int hh ;;
      minute <- py_int mi ;;
      second <- py_int ss ;;
      let year := Datetime.year now in
      month_num <- Datetime.strptime_b_month month_str ;;
      except_ValueError
        (dt <- Datetime.new year month_num day hour minute second ;;
         Ok (Some dt))
        (Ok None)
  end.

Definition should_include_log_line (now : datetime) (line : string)
    (start_datetime : option datetime) : result bool :=
  match start_datetime with
  | None => Ok true
  | Some start =>
      line_datetime <- parse_timestamp_from_line now line ;;
      match line_datetime with
      | None => Ok false
      | Some dt => Ok (Datetime.ge dt start)
      end
  end.

(** One date pattern: days 1-9 have two spaces, days 10+ have one. *)
Definition date_pattern (date_obj : datetime) : string :=
  let day := Datetime.day date_obj in
  let month := Datetime.strftime_b date_obj in
  if (day <? 10)%Z then month ++ "  " ++ py_str day
  else month ++ " " ++ py_str day.

(** The loop [for i in range(days_back + 1)], from [i] on. *)
Fixpoint lookback_patterns (now : datetime) (i : nat) (count : nat)
  : result (list string) :=
  match count with
  | O => Ok []
  | S count' =>
      date_obj <- Datetime.minus_days now i ;;
      rest <- lookback_patterns now (S i) count' ;;
      Ok (date_pattern date_obj :: rest)
  end.

Definition parse_date_filter (now : datetime) (date_input : string)
    (time_input : option string) : result (option (list string)) :=
  if negb (nonempty date_input) then Ok None
  else
    except_ValueError
      (days_back <- py_int date_input ;;
       patterns <- lookback_patterns now 0 (Z.to_nat (days_back + 1)) ;;
       Ok (Some patterns))
      (Ok None).

(** ** The aggregator *)

(** The dictionary kept for one queue id, keys
    [from], [to], [size], [status], [sg] and [time]. *)
Record message : Type := mkmsg {
  m_from : string;
  m_to : string;
  m_size : string;
  m_status : string;
  m_sg : string;
  m_time : string
}.

(** [messages]: queue id to message, in insertion order. *)
Definition dict : Type := list (string * message).

Fixpoint dict_get (qid : string) (d : dict) : option message :=
  match d with
  | [] => None
  | (k, v) :: d' => if String.eqb k qid then Some v else dict_get qid d'
  end.

(** [qid in messages]. *)
Definition dict_mem (qid : string) (d : dict) : bool :=
  match dict_get qid d with Some _ => true | None => false end.

(** [messages[qid] = v]: an existing key keeps its place. *)
Fixpoint dict_set (qid : string) (v : message) (d : dict) : dict :=
  match d with
  | [] => [(qid, v)]
  | (k, v') :: d' =>
      if String.eqb k qid then (k, v) :: d' else (k, v') :: dict_set qid v d'
  end.

Definition new_message : message := mkmsg "-" "-" "-" "-" "No" "-".

(** [messages[qid]] once the key is known to be present. *)
Definition dict_item (qid : string) (d : dict) : message :=
  match dict_get qid d with Some v => v | None => new_message end.

(** The entry that replaces the old one on a blocked line. *)
Definition blocked_message (date_filter line : string) : message :=
  mkmsg (or_else (extract_field line from_re) "-")
        (or_else (extract_field line to_re) "-")
        "-"
        "blocked"
        (if is_sendgrid line then "Yes" else "No")
        (if nonempty date_filter then date_filter else "-").

(** The field updates of a standard message line, on the entry of its
    queue id. *)
Definition merge_line (line : string) (m : message) : result message :=
  let from_addr := extract_field line from_re in
  let m := if truthy from_addr
           then mkmsg (or_else from_addr "") (m_to m) (m_size m)
                      (m_status m) (m_sg m) (m_time m)
           else m in
  let to_addr := extract_field line to_re in
  let m := if truthy to_addr
           then mkmsg (m_from m) (or_else to_addr "") (m_size m)
                      (m_status m) (m_sg m) (m_time m)
           else m in
  let size := extract_field line size_re in
  let m := if truthy size
           then mkmsg (m_from m) (m_to m) (or_else size "")
                      (m_status m) (m_sg m) (m_time m)
           else m in
  let m := if contains "status=sent" line
           then mkmsg (m_from m) (m_to m) (m_size m) "sent" (m_sg m) (m_time m)
           else m in
  let m := if is_sendgrid line
           then mkmsg (m_from m) (m_to m) (m_size m) (m_status m) "Yes"
                      (m_time m)
           else m in
  if String.eqb (m_time m) "-" then
    timestamp <- extract_timestamp line ;;
    if truthy timestamp
    then Ok (mkmsg (m_from m) (m_to m) (m_size m) (m_status m) (m_sg m)
                   (or_else timestamp ""))
    else Ok m
  else Ok m.

(** The body of the loop of [process_logs] below the date filter. *)
Definition process_line (date_filter : string) (messages : dict)
    (line : string) : result dict :=
  let qid := extract_queue_id line in
  if negb (truthy qid) then Ok messages
  else
    let qid := or_else qid "" in
    let messages :=
      if negb (dict_mem qid messages)
      then dict_set qid new_message messages
      else messages in
    if is_blocked line
    then Ok (dict_set qid (blocked_message date_filter line) messages)
    else
      m <- merge_line line (dict_item qid messages) ;;
      Ok (dict_set qid m messages).

(** [if x:] for a list that may be [None]. *)
Definition truthy_list {A : Type} (o : option (list A)) : bool :=
  match o with Some (_ :: _) => true | _ => false end.

(** The date/time filter at the head of the loop: [true] when the line
    goes on to be processed. *)
Definition passes_date_filter (now : datetime)
    (start_datetime : option datetime)
    (date_patterns : option (list string)) (line : string) : result bool :=
  match start_datetime with
  | Some _ => should_include_log_line now line start_datetime
  | None =>
      if truthy_list date_patterns
      then Ok (existsb (fun pattern => contains pattern line)
                       (match date_patterns with Some l => l | None => [] end))
      else Ok true
  end.

Fixpoint scan (now : datetime) (start_datetime : option datetime)
    (date_patterns : option (list string)) (date_filter : string)
    (lines : list string) (messages : dict) : result dict :=
  match lines with
  | [] => Ok messages
  | line :: rest =>
      keep <- passes_date_filter now start_datetime date_patterns line ;;
      if keep then
        messages' <- process_line date_filter messages line ;;
        scan now start_datetime date_patterns date_filter rest messages'
      else scan now start_datetime date_patterns date_filter rest messages
  end.

Definition is_some {A : Type} (o : option A) : bool :=
  match o with Some _ => true | None => false end.

Definition process_logs (now : datetime) (lines : list string)
    (date_filter : string) (time_filter : option string) : result dict :=
  start_datetime <-
    (if nonempty date_filter
     then parse_date_time_for_comparison now date_filter time_filter
     else Ok None) ;;
  date_patterns <-
    (if nonempty date_filter && negb (is_some start_datetime)
     then parse_date_filter now date_filter time_filter
     else Ok None) ;;
  scan now start_datetime date_patterns date_filter lines [].

(** ** The report: which messages are shown *)

(** Messages with some useful data. *)
Definition useful (info : message) : bool :=
  negb (String.eqb (m_from info) "-")
  || negb (String.eqb (m_to info) "-")
  || negb (String.eqb (m_size info) "-")
  || negb (String.eqb (m_status info) "-").

(** The test applied to one message when a search term is given. *)
Definition search_keeps (search_lower search_type : string) (info : message)
  : bool :=
  if String.eqb search_type "sender" then
    negb (String.eqb (m_from info) "-")
    && contains search_lower (lower (m_from info))
  else if String.eqb search_type "recipient" then
    negb (String.eqb (m_to info) "-")
    && contains search_lower (lower (m_to info))
  else
    let from_match := negb (String.eqb (m_from info) "-")
                      && contains search_lower (lower (m_from info)) in
    let to_match := negb (String.eqb (m_to info) "-")
                    && contains search_lower (lower (m_to info)) in
    from_match || to_match.

Definition status_keeps (status_filter : string) (info : message) : bool :=
  if String.eqb status_filter "success" then String.eqb (m_status info) "sent"
  else if String.eqb status_filter "blocked"
  then String.eqb (m_status info) "blocked"
  else if String.eqb status_filter "unknown"
  then String.eqb (m_status info) "-"
  else true.

(** [useful_messages] as [print_report] has it when it starts printing
    rows. *)
Definition print_report_rows (messages : dict) (search_term search_type : string)
    (status_filter : option string) : dict :=
  let useful_messages := filter (fun qi => useful (snd qi)) messages in
  let useful_messages :=
    if nonempty search_term then
      let search_lower := lower search_term in
      filter (fun qi => search_keeps search_lower search_type (snd qi))
             useful_messages
    else useful_messages in
  if truthy status_filter then
    filter (fun qi => status_keeps (or_else status_filter "") (snd qi))
           useful_messages
  else useful_messages.

(** ** The report: sizes and summary counts *)

(** A float that is a whole number of 1024ths is kept as that number:
    [size_bytes / 1024] is the integer rounded to the 53 significant bits
    of a double (ties to even), and is too large for a double from 2^1024
    on. *)
Definition round53 (n : Z) : Z :=
  if (n <? 2 ^ 53)%Z then n
  else
    let e := (Z.log2 n + 1 - 53)%Z in
    let q := Z.shiftr n e in
    let rem := (n mod 2 ^ e)%Z in
    let half := (2 ^ (e - 1))%Z in
    let q := if (half <? rem)%Z || ((rem =? half)%Z && Z.odd q)
             then (q + 1)%Z else q in
    Z.shiftl q e.

(** [n / 1024], as the number of 1024ths. *)
Definition true_div_1024 (n : Z) : result Z :=
  let r := round53 (Z.abs n) in
  if (2 ^ 1034 <=? r)%Z then Raise OverflowError
  else Ok (Z.sgn n * r)%Z.

(** [int(x)] of such a float: truncation. *)
Definition int_of_1024ths (x : Z) : Z := Z.quot x 1024.

(** Convert byte size to kilobytes. *)
Definition format_size (size_str : string) : result string :=
  if String.eqb size_str "-" then Ok "-"
  else
    except_ValueError
      (size_bytes <- py_int size_str ;;
       size_kb <- true_div_1024 size_bytes ;;
       Ok (py_str (int_of_1024ths size_kb) ++ "KB"))
      (Ok "-").

(** [sum(1 for msg in useful_messages.values() if msg['status'] == status)]. *)
Definition status_count (status : string) (useful_messages : dict) : nat :=
  List.length
    (filter (fun qi => String.eqb (m_status (snd qi)) status) useful_messages).

(** The three counts printed under the rows, and the total. *)
Definition sent_count (useful_messages : dict) : nat :=
  status_count "sent" useful_messages.

Definition blocked_count (useful_messages : dict) : nat :=
  status_count "blocked" useful_messages.

Definition unknown_count (useful_messages : dict) : nat :=
  status_count "-" useful_messages.

Definition total_count (useful_messages : dict) : nat :=
  List.length useful_messages.

(** * Vocabulary of the statements *)

(** [sub in s] says that [s] is [pre ++ sub ++ post]. *)
Definition is_substring (sub s : string) : Prop :=
  exists pre post, s = pre ++ sub ++ post.

(** Case analysis on the 256 characters. *)
Ltac each_char c :=
  destruct c as [[] [] [] [] [] [] [] []].

(** The text has more characters than [int()] takes digits. *)
Definition over_limit (s : string) : bool :=
  (max_str_digits <? N.of_nat (String.length s))%N.

(** The day of the first syslog timestamp of the line is too long for
    [int()]. *)
Definition day_too_long (line : string) : bool :=
  match search timestamp_re line with
  | Some (_, d, _) => over_limit d
  | None => false
  end.


(** The first syslog timestamp of a line, rendered day first: the day as
    an integer, the month name, the time of day. *)
Definition timestamp_of (line : string) : option string :=
  match search timestamp_re line with
  | Some (month, d, time) =>
      Some (py_str (Z.of_N (digits_value d)) ++ " " ++ month ++ " " ++ time)
  | None => None
  end.

(** What [merge_line] leaves in the entry: the address and size fields
    take the value found on the line when there is one, the status and
    the SendGrid flag are only ever switched on, and the time is filled
    in only while it is still ["-"]. *)
Definition merged (line : string) (m : message) : message :=
  mkmsg (or_else (extract_field line from_re) (m_from m))
        (or_else (extract_field line to_re) (m_to m))
        (or_else (extract_field line size_re) (m_size m))
        (if contains "status=sent" line then "sent" else m_status m)
        (if is_sendgrid line then "Yes" else m_sg m)
        (if String.eqb (m_time m) "-"
         then or_else (timestamp_of line) "-"
         else m_time m).

(** The dictionary once the entry of [qid] is known to exist. *)
Definition with_entry (qid : string) (messages : dict) : dict :=
  if negb (dict_mem qid messages)
  then dict_set qid new_message messages
  else messages.

(** The line carries the queue id [qid]. *)
Definition has_queue_id (qid line : string) : bool :=
  match extract_queue_id line with
  | Some q => String.eqb q qid
  | None => false
  end.

(** A capital letter: [A-Z], and in Latin-1 the letters from [À] to [Þ],
    the multiplication sign at 215 left out. *)
Definition capital (c : ascii) : bool :=
  let n := N_of_ascii c in
  ((65 <=? n) && (n <=? 90) || (192 <=? n) && (n <=? 214)
   || (216 <=? n) && (n <=? 222))%N.

(** Two characters are the same letter, letter case aside: they are
    equal, or one is the capital of the other, which sits 32 places
    below it. *)
Definition same_letter (a b : ascii) : bool :=
  Ascii.eqb a b
  || (capital a && (N_of_ascii b =? N_of_ascii a + 32)%N)
  || (capital b && (N_of_ascii a =? N_of_ascii b + 32)%N).

(** Two texts of one length whose characters are the same letters. *)
Fixpoint same_text (s t : string) : bool :=
  match s, t with
  | EmptyString, EmptyString => true
  | String a s', String b t' => same_letter a b && same_text s' t'
  | _, _ => false
  end.

(** [s] contains [sub], letter case aside: a stretch of [s] is the same
    text as [sub]. *)
Definition is_substring_nocase (sub s : string) : Prop :=
  exists pre mid post, s = pre ++ mid ++ post /\ same_text mid sub = true.

(** The 256 characters. *)
Definition all_chars : list ascii := map ascii_of_nat (seq 0 256).

(** The field is set and contains the term, letter case aside. *)
Definition field_matches (term field : string) : Prop :=
  field <> "-" /\ is_substring_nocase term field.

Definition message_matches (term search_type : string) (info : message)
  : Prop :=
  if String.eqb search_type "sender" then field_matches term (m_from info)
  else if String.eqb search_type "recipient"
  then field_matches term (m_to info)
  else field_matches term (m_from info) \/ field_matches term (m_to info).

(** The line goes past the date filter. *)
Definition kept (now : datetime) (start_datetime : option datetime)
    (date_patterns : option (list string)) (line : string) : bool :=
  match passes_date_filter now start_datetime date_patterns line with
  | Ok b => b
  | Raise _ => false
  end.

(** The line goes past the date filter and carries the queue id [qid]. *)
Definition processed_for (now : datetime) (start_datetime : option datetime)
    (date_patterns : option (list string)) (qid line : string) : bool :=
  kept now start_datetime date_patterns line && has_queue_id qid line.

(** The first timestamp that a list of lines has, rendered as
    [timestamp_of] renders it; ["-"] when none has one. *)
Fixpoint first_timestamp (lines : list string) : string :=
  match lines with
  | [] => "-"
  | line :: rest => or_else (timestamp_of line) (first_timestamp rest)
  end.

(** The character before the position reached after [m], when [prev] is
    the one before [m]. *)
Fixpoint last_of (prev : option ascii) (m : string) : option ascii :=
  match m with
  | EmptyString => prev
  | String a m' => last_of (Some a) m'
  end.

(** [n] repetitions are within the upper bound [hi] of a repetition. *)
Definition within_hi (hi : option nat) (n : nat) : Prop :=
  match hi with Some h => n <= h | None => True end.

(** The queue ids of the lines that go past the date filter, in order. *)
Fixpoint processed_ids (now : datetime) (start_datetime : option datetime)
    (date_patterns : option (list string)) (lines : list string)
  : list string :=
  match lines with
  | [] => []
  | line :: rest =>
      let ids := processed_ids now start_datetime date_patterns rest in
      if kept now start_datetime date_patterns line then
        match extract_queue_id line with
        | Some qid => qid :: ids
        | None => ids
        end
      else ids
  end.

(** Each element once, in the order of first appearance. *)
Fixpoint first_occurrences (l : list string) : list string :=
  match l with
  | [] => []
  | x :: l' =>
      x :: filter (fun y => negb (String.eqb x y)) (first_occurrences l')
  end.

(** What every entry built by the scan satisfies. *)
Definition entry_ok (m : message) : Prop :=
  (m_status m = "-" \/ m_status m = "sent" \/ m_status m = "blocked")
  /\ (m_sg m = "Yes" \/ m_sg m = "No")
  /\ (m_size m = "-"
      \/ (m_size m <> "" /\ forallb_str is_dec (m_size m) = true))
  /\ m_from m <> "" /\ forallb_str not_gt (m_from m) = true
  /\ m_to m <> "" /\ forallb_str not_gt (m_to m) = true
  /\ m_time m <> "".

Definition entries_ok (messages : dict) : Prop :=
  Forall (fun qi => entry_ok (snd qi)) messages.

(** [x] is one of the strings of [l]. *)
Definition mem (x : string) (l : list string) : bool :=
  existsb (String.eqb x) l.

(** The text [s'] does not go on with a character of the class. *)
Definition stops (cls : ascii -> bool) (s' : string) : Prop :=
  match s' with String b _ => cls b = false | EmptyString => True end.

(** ** Sample log lines, entries and clocks *)

Definition reject_line : string :=
  "Dec  5 10:00:09 mail postfix/smtpd[7]: AA11BB22CC33: NOQUEUE: reject: RCPT from=<c@z.com> size=99 status=sent".

Definition earlier_entry : dict :=
  [("AA11BB22CC33",
    mkmsg "a@x.com" "b@y.com" "512" "sent" "Yes" "5 Dec 10:00:00")].

Definition from_line : string :=
  "Dec  5 10:00:00 ... ABCDEF1234: from=<a@x.com>".

Definition sent_line : string :=
  "Dec  5 10:00:05 ... ABCDEF1234: to=<b@y.com>, size=512, status=sent".

Definition other_from_line : string :=
  "Dec  5 10:00:07 ... ABCDEF1234: from=<d@w.com>".

Definition deferred_line : string :=
  "Dec  5 10:00:01 mail postfix/smtp[9]: ABCDEF1234: to=<b@y.com>, status=deferred (connection timed out)".

Definition retry_sent_line : string :=
  "Dec  5 10:05:01 mail postfix/smtp[9]: ABCDEF1234: to=<b@y.com>, status=sent (250 ok)".

Definition bounce_line : string :=
  "Dec  5 10:00:09 mail postfix/qmgr[3]: ABCDEF1234: from=<>, size=2048, nrcpt=1 (queue active)".

Definition report_messages : dict :=
  [("ABCDEF1234", mkmsg "alice@Example.COM" "bob@other.org" "512" "sent" "No" "-");
   ("AA11BB22CC33", mkmsg "carol@z.com" "dave@example.com" "-" "blocked" "No" "-");
   ("0123456789AB", mkmsg "erin@example.com" "-" "100" "-" "No" "-")].

Definition spec_example_now : datetime := Datetime.mkdt 2025 12 5 12 0 0.

Definition lookback_now : datetime := Datetime.mkdt 2025 12 10 8 30 0.

Definition lookback_log : list string :=
  ["Dec 10 08:00:00 mail postfix/qmgr[3]: ABCDEF1234: from=<a@x.com>, size=512";
   "Dec  9 23:59:59 mail postfix/qmgr[3]: AA11BB22CC33: from=<c@z.com>, size=99";
   "Dec  8 12:00:00 mail postfix/qmgr[3]: 0123456789AB: from=<e@v.com>, size=7"].

(** A line with [from=<>] after a first, non-empty sender; a deferred
    line with [to=<>] after a first, non-empty recipient; a deferred line
    whose only recipient is empty. *)
Definition second_sender_line : string :=
  "Dec  5 10:00:09 mail postfix/qmgr[3]: ABCDEF1234: from=<a@x.com>, orig from=<>".

Definition second_recipient_line : string :=
  "Dec  5 10:00:09 mail postfix/smtp[9]: ABCDEF1234: to=<b@y.com>, orig_to=<>, status=deferred".

Definition null_recipient_line : string :=
  "Dec  5 10:00:09 mail postfix/smtp[9]: ABCDEF1234: to=<>, status=deferred".

(** A run of [n] copies of one character. *)
Fixpoint repeat_char (c : ascii) (n : nat) : string :=
  match n with
  | O => EmptyString
  | S n' => String c (repeat_char c n')
  end.

(** A standard line whose day has 4301 digits. *)
Definition long_day_line : string :=
  "Dec " ++ repeat_char "1" 4301 ++ " 10:00:00 ... ABCDEF1234: from=<a@x.com>".

Definition unknown_month_line : string :=
  "Foo 12 10:00:00 mail postfix/qmgr[3]: ABCDEF1234: from=<a@x.com>".

Definition huge_day_line : string :=
  "Dec 99999999999 10:00:00 mail postfix/qmgr[3]: ABCDEF1234: from=<a@x.com>".

(** * Properties *)

(** ** Strings *)

Lemma append_empty_r (s : string) : s ++ "" = s.
Proof. induction s as [|c s IH]; simpl; [reflexivity | now rewrite IH]. Qed.

Lemma append_assoc (a b c : string) : (a ++ b) ++ c = a ++ (b ++ c).
Proof. induction a as [|x a IH]; simpl; [reflexivity | now rewrite IH]. Qed.

Lemma nonempty_true (s : string) : nonempty s = true <-> s <> "".
Proof. destruct s; simpl; split; intros; congruence. Qed.

Lemma prefix_spec (sub s : string) :
  prefix sub s = true <-> exists post, s = sub ++ post.
Proof.
  revert s; induction sub as [|c sub IH]; intros s; simpl.
  - split; [intros _; now exists s | intros _; now destruct s].
  - destruct s as [|a s]; simpl.
    + split; [discriminate | intros [post H]; discriminate].
    + destruct (ascii_dec c a) as [->|Hne].
      * rewrite IH. split; intros [post H]; exists post.
        -- now rewrite H.
        -- now injection H.
      * split; [discriminate | intros [post H]; injection H; congruence].
Qed.

Lemma contains_spec (sub s : string) :
  contains sub s = true <-> is_substring sub s.
Proof.
  unfold is_substring. induction s as [|a s IH].
  - cbn [contains]. rewrite orb_false_r, prefix_spec. split.
    + intros [post H]. now exists "", post.
    + intros [pre [post H]]. destruct pre; simpl in H.
      * now exists post.
      * discriminate.
  - cbn [contains]. rewrite orb_true_iff, prefix_spec, IH. split.
    + intros [[post H] | [pre [post H]]].
      * now exists "", post.
      * exists (String a pre), post. simpl. now rewrite H.
    + intros [pre [post H]]. destruct pre as [|b pre]; simpl in H.
      * left. now exists post.
      * right. injection H as _ H. now exists pre, post.
Qed.

(** ** The message dictionary *)

Lemma dict_get_set_same (qid : string) (v : message) (d : dict) :
  dict_get qid (dict_set qid v d) = Some v.
Proof.
  induction d as [|[k v'] d IH]; simpl.
  - now rewrite String.eqb_refl.
  - destruct (String.eqb k qid) eqn:E; simpl; rewrite E; [reflexivity | exact IH].
Qed.

Lemma dict_get_set_other (qid qid' : string) (v : message) (d : dict) :
  qid' <> qid -> dict_get qid' (dict_set qid v d) = dict_get qid' d.
Proof.
  intros Hne. induction d as [|[k v'] d IH]; simpl.
  - destruct (String.eqb qid qid') eqn:E; [|reflexivity].
    apply String.eqb_eq in E. congruence.
  - destruct (String.eqb k qid) eqn:E; simpl.
    + apply String.eqb_eq in E. subst k.
      destruct (String.eqb qid qid') eqn:E'; [|reflexivity].
      apply String.eqb_eq in E'. congruence.
    + now rewrite IH.
Qed.

(** ** Matches of the patterns *)

Section ReFacts.
Context {R : Type}.

Lemma rep_go_inv (cls : ascii -> bool) (lo : nat) (hi : option nat)
    (k : string -> cont (R := R)) (s : string) :
  forall n acc prev r,
    rep_go cls lo hi n acc k prev s = Some r ->
    exists m prev' s',
      s = m ++ s' /\ forallb_str cls m = true /\ lo <= n + String.length m
      /\ k (acc ++ m) prev' s' = Some r.
Proof.
  induction s as [|a s IH]; intros n acc prev r H; cbn [rep_go] in H.
  - destruct (Nat.leb lo n) eqn:E; [|discriminate].
    apply Nat.leb_le in E. exists "", prev, "". rewrite (append_empty_r acc).
    simpl. repeat split; [lia | exact H].
  - assert (Hstop :
      (if Nat.leb lo n then k acc prev (String a s) else None) = Some r ->
      exists m prev' s', String a s = m ++ s' /\ forallb_str cls m = true
        /\ lo <= n + String.length m /\ k (acc ++ m) prev' s' = Some r).
    { intros H'. destruct (Nat.leb lo n) eqn:E; [|discriminate].
      apply Nat.leb_le in E. exists "", prev, (String a s).
      rewrite (append_empty_r acc). simpl. repeat split; [lia | exact H']. }
    destruct (cls a && below hi n) eqn:Ec; [|now apply Hstop].
    destruct (rep_go cls lo hi (S n) (acc ++ String a "") k (Some a) s)
      as [r0|] eqn:Er; [|now apply Hstop].
    injection H as ->. apply IH in Er.
    destruct Er as (m & prev' & s' & Hs & Hm & Hlo & Hk).
    apply andb_true_iff in Ec. destruct Ec as [Ha _].
    exists (String a m), prev', s'. simpl. rewrite Ha, Hm.
    repeat split; [now rewrite Hs | lia |].
    now rewrite append_assoc in Hk.
Qed.

Lemma rep_inv (cls : ascii -> bool) (lo : nat) (hi : option nat)
    (k : string -> cont (R := R)) (prev : option ascii) (s : string) (r : R) :
  rep cls lo hi k prev s = Some r ->
  exists m prev' s',
    s = m ++ s' /\ forallb_str cls m = true /\ lo <= String.length m
    /\ k m prev' s' = Some r.
Proof.
  intros H. apply rep_go_inv in H.
  destruct H as (m & prev' & s' & Hs & Hm & Hlo & Hk).
  now exists m, prev', s'.
Qed.

Lemma lit_inv (c : ascii) (k : cont (R := R)) (prev : option ascii)
    (s : string) (r : R) :
  lit c k prev s = Some r -> exists s', s = String c s' /\ k (Some c) s' = Some r.
Proof.
  unfold lit. destruct s as [|a s]; [discriminate|].
  destruct (Ascii.eqb a c) eqn:E; [|discriminate].
  apply Ascii.eqb_eq in E. subst a. intros H. now exists s.
Qed.

Lemma wordb_inv (k : cont (R := R)) (prev : option ascii) (s : string) (r : R) :
  wordb k prev s = Some r -> k prev s = Some r.
Proof.
  unfold wordb. now destruct (xorb (word_opt prev) (word_opt (head s))).
Qed.

Lemma search_from_inv (p : cont (R := R)) (s : string) :
  forall prev r, search_from p prev s = Some r ->
    exists prev' s', p prev' s' = Some r.
Proof.
  induction s as [|a s IH]; intros prev r H; cbn [search_from] in H.
  - destruct (p prev "") eqn:E; [|discriminate].
    injection H as ->. now exists prev, "".
  - destruct (p prev (String a s)) eqn:E.
    + injection H as ->. now exists prev, (String a s).
    + now apply IH in H.
Qed.

Lemma search_inv (p : cont (R := R)) (s : string) (r : R) :
  search p s = Some r -> exists prev' s', p prev' s' = Some r.
Proof. apply search_from_inv. Qed.

End ReFacts.

(** ** [int()] on a run of decimal digits *)

Lemma is_dec_not_int_space (c : ascii) :
  is_dec c = true -> is_int_space c = false.
Proof. each_char c; vm_compute; congruence. Qed.

Lemma int_body_digits (s : string) :
  forallb_str is_dec s = true ->
  forall acc b, s <> "" \/ b = true ->
    int_body acc b s = Some (digits_value_aux acc s).
Proof.
  induction s as [|c s IH]; intros H acc b Hb.
  - destruct Hb as [Hb | ->]; [congruence | reflexivity].
  - simpl in H. apply andb_true_iff in H. destruct H as [Hc Hs].
    cbn [int_body digits_value_aux]. rewrite Hc. apply IH; auto.
Qed.

Lemma lstrip_digits (c : ascii) (s : string) :
  is_dec c = true -> lstrip (String c s) = String c s.
Proof. intros H. simpl. now rewrite (is_dec_not_int_space c H). Qed.

Lemma rstrip_digits (s : string) :
  forallb_str is_dec s = true -> rstrip s = s.
Proof.
  induction s as [|c s IH]; intros H; [reflexivity|].
  simpl in H. apply andb_true_iff in H. destruct H as [Hc Hs].
  cbn [rstrip]. rewrite (IH Hs). destruct s; simpl; [|reflexivity].
  now rewrite (is_dec_not_int_space c Hc).
Qed.

Lemma int_literal_digits (s : string) :
  forallb_str is_dec s = true -> s <> "" ->
  int_literal s = Some (Z.of_N (digits_value s)).
Proof.
  intros H Hne. destruct s as [|c s]; [congruence|].
  assert (Hb := int_body_digits _ H 0%N false (or_introl Hne)).
  simpl in H. apply andb_true_iff in H. destruct H as [Hc _].
  each_char c; vm_compute in Hc; try discriminate;
    unfold int_literal; rewrite Hb; reflexivity.
Qed.

Lemma digit_count_digits (s : string) :
  forallb_str is_dec s = true ->
  digit_count s = N.of_nat (String.length s).
Proof.
  induction s as [|c s IH]; intros H; [reflexivity|].
  simpl in H. apply andb_true_iff in H. destruct H as [Hc Hs].
  cbn [digit_count String.length]. rewrite Hc, (IH Hs). lia.
Qed.

(** On a non-empty run of decimal digits [int()] returns its value,
    unless the run is longer than the digit limit. *)
Lemma py_int_digits_spec (s : string) :
  forallb_str is_dec s = true -> s <> "" ->
  py_int s = if over_limit s then Raise ValueError
             else Ok (Z.of_N (digits_value s)).
Proof.
  intros H Hne. unfold py_int, over_limit.
  assert (Hl : lstrip s = s).
  { destruct s as [|c s]; [reflexivity|]. apply lstrip_digits.
    simpl in H. now apply andb_true_iff in H. }
  cbv zeta.
  now rewrite Hl, (rstrip_digits s H), (int_literal_digits s H Hne),
    (digit_count_digits s H).
Qed.

Lemma py_int_digits (s : string) :
  forallb_str is_dec s = true -> s <> "" -> over_limit s = false ->
  py_int s = Ok (Z.of_N (digits_value s)).
Proof.
  intros H Hne Hl. now rewrite (py_int_digits_spec s H Hne), Hl.
Qed.

Lemma over_limit_short (s : string) :
  String.length s <= 4300 -> over_limit s = false.
Proof. intros H. unfold over_limit, max_str_digits. apply N.ltb_ge. lia. Qed.

(** ** What the classifier extracts *)

Lemma extract_queue_id_nonempty (line qid : string) :
  extract_queue_id line = Some qid -> nonempty qid = true.
Proof.
  intros H. apply search_inv in H. destruct H as (prev & s & H).
  apply wordb_inv, rep_inv in H.
  destruct H as (m & prev' & s' & _ & _ & Hlen & H).
  apply wordb_inv in H. injection H as <-.
  destruct m; [simpl in Hlen; lia | reflexivity].
Qed.

Lemma timestamp_re_day (prev : option ascii) (s month d time : string) :
  timestamp_re prev s = Some (month, d, time) ->
  forallb_str is_dec d = true /\ d <> "".
Proof.
  intros H. unfold timestamp_re in H.
  apply rep_inv in H. destruct H as (m1 & p1 & s1 & _ & _ & _ & H).
  apply rep_inv in H. destruct H as (m2 & p2 & s2 & _ & _ & _ & H).
  apply rep_inv in H. destruct H as (m3 & p3 & s3 & _ & _ & _ & H).
  apply rep_inv in H. destruct H as (dd & p4 & s4 & _ & Hd & Hlen & H).
  apply rep_inv in H. destruct H as (m5 & p5 & s5 & _ & _ & _ & H).
  apply rep_inv in H. destruct H as (hh & p6 & s6 & _ & _ & _ & H).
  apply lit_inv in H. destruct H as (s7 & _ & H).
  apply rep_inv in H. destruct H as (mi & p8 & s8 & _ & _ & _ & H).
  apply lit_inv in H. destruct H as (s9 & _ & H).
  apply rep_inv in H. destruct H as (ss & p10 & s10 & _ & _ & _ & H).
  injection H as _ <- _. split; [exact Hd|].
  destruct dd; [simpl in Hlen; lia | discriminate].
Qed.

(** [extract_timestamp] raises on a day over the digit limit, and on
    nothing else. *)
Lemma extract_timestamp_spec (line : string) :
  extract_timestamp line =
  if day_too_long line then Raise ValueError else Ok (timestamp_of line).
Proof.
  unfold extract_timestamp, timestamp_of, day_too_long.
  destruct (search timestamp_re line) as [[[month d] time]|] eqn:E;
    [|reflexivity].
  apply search_inv in E. destruct E as (prev & s & E).
  apply timestamp_re_day in E. destruct E as [Hd Hne].
  rewrite (py_int_digits_spec d Hd Hne). now destruct (over_limit d).
Qed.

Lemma spaced_not_dash (a b : string) : a ++ " " ++ b <> "-".
Proof.
  destruct a as [|c a]; simpl; [discriminate|].
  destruct a; simpl; discriminate.
Qed.

Lemma timestamp_of_set (line ts : string) :
  timestamp_of line = Some ts -> nonempty ts = true /\ ts <> "-".
Proof.
  unfold timestamp_of.
  destruct (search timestamp_re line) as [[[month d] time]|]; [|discriminate].
  intros H. injection H as <-. split.
  - apply nonempty_true. intros E.
    destruct (py_str (Z.of_N (digits_value d))); discriminate.
  - apply spaced_not_dash.
Qed.

(** ** One line through the aggregator *)

Lemma truthy_or_else (o : option string) (d : string) :
  (if truthy o then or_else o "" else d) = or_else o d.
Proof. destruct o as [[|c s]|]; reflexivity. Qed.

(** [merge_line] raises when it looks the timestamp up, the time being
    still unset, and the day is over the digit limit. *)
Lemma merge_line_merged (line : string) (m : message) :
  merge_line line m =
  if String.eqb (m_time m) "-" && day_too_long line
  then Raise ValueError else Ok (merged line m).
Proof.
  unfold merge_line, merged. rewrite extract_timestamp_spec.
  destruct m as [f t sz st sg tm]; cbn [m_from m_to m_size m_status m_sg m_time].
  rewrite <- (truthy_or_else (extract_field line from_re) f),
          <- (truthy_or_else (extract_field line to_re) t),
          <- (truthy_or_else (extract_field line size_re) sz).
  destruct (truthy (extract_field line from_re));
  destruct (truthy (extract_field line to_re));
  destruct (truthy (extract_field line size_re));
  destruct (contains "status=sent" line);
  destruct (is_sendgrid line);
  cbn [m_from m_to m_size m_status m_sg m_time];
  destruct (String.eqb tm "-") eqn:Et; cbn [bind andb]; try reflexivity;
  destruct (day_too_long line); cbn [bind]; try reflexivity;
  apply String.eqb_eq in Et; subst tm;
  destruct (timestamp_of line) as [ts|] eqn:E; cbn [truthy or_else];
  try reflexivity;
  destruct (timestamp_of_set _ _ E) as [Hne _]; rewrite Hne; reflexivity.
Qed.

Lemma with_entry_item (qid : string) (messages : dict) :
  dict_item qid (with_entry qid messages) = dict_item qid messages.
Proof.
  unfold with_entry, dict_mem, dict_item.
  destruct (dict_get qid messages) eqn:E; simpl.
  - now rewrite E.
  - now rewrite dict_get_set_same.
Qed.

Lemma with_entry_other (qid qid' : string) (messages : dict) :
  qid' <> qid ->
  dict_get qid' (with_entry qid messages) = dict_get qid' messages.
Proof.
  intros Hne. unfold with_entry.
  destruct (negb (dict_mem qid messages)); [|reflexivity].
  now apply dict_get_set_other.
Qed.

Lemma process_line_unfold (date_filter : string) (messages : dict)
    (line qid : string) :
  extract_queue_id line = Some qid ->
  process_line date_filter messages line =
  if is_blocked line
  then Ok (dict_set qid (blocked_message date_filter line)
                    (with_entry qid messages))
  else if String.eqb (m_time (dict_item qid messages)) "-"
          && day_too_long line
  then Raise ValueError
  else Ok (dict_set qid (merged line (dict_item qid messages))
                    (with_entry qid messages)).
Proof.
  intros Hq. unfold process_line. rewrite Hq.
  pose proof (extract_queue_id_nonempty _ _ Hq) as Hne.
  cbn [truthy or_else]. rewrite Hne. cbn [negb].
  fold (with_entry qid messages).
  destruct (is_blocked line); [reflexivity|].
  rewrite with_entry_item, merge_line_merged.
  now destruct (String.eqb (m_time (dict_item qid messages)) "-"
                && day_too_long line).
Qed.

(** What a line with a queue id leaves behind when it is processed. *)
Lemma process_line_ok_inv (date_filter : string) (messages messages' : dict)
    (line qid : string) :
  extract_queue_id line = Some qid ->
  process_line date_filter messages line = Ok messages' ->
  messages'
  = dict_set qid (if is_blocked line then blocked_message date_filter line
                  else merged line (dict_item qid messages))
             (with_entry qid messages).
Proof.
  intros Hq Hp. rewrite (process_line_unfold _ _ _ _ Hq) in Hp.
  destruct (is_blocked line); [now injection Hp as <-|].
  destruct (String.eqb (m_time (dict_item qid messages)) "-"
            && day_too_long line); [discriminate|].
  now injection Hp as <-.
Qed.

(** A blocked line with a queue id. *)
Lemma process_line_blocked (date_filter : string) (messages : dict)
    (line qid : string) :
  extract_queue_id line = Some qid -> is_blocked line = true ->
  exists messages',
    process_line date_filter messages line = Ok messages'
    /\ dict_get qid messages' = Some (blocked_message date_filter line)
    /\ forall qid', qid' <> qid ->
         dict_get qid' messages' = dict_get qid' messages.
Proof.
  intros Hq Hb. rewrite (process_line_unfold _ _ _ _ Hq), Hb.
  eexists. split; [reflexivity|]. split.
  - apply dict_get_set_same.
  - intros q' Hne. rewrite dict_get_set_other by exact Hne.
    now apply with_entry_other.
Qed.

(** A standard line with a queue id, when it is processed without an
    error. *)
Lemma process_line_standard (date_filter : string) (messages : dict)
    (line qid : string) (messages' : dict) :
  extract_queue_id line = Some qid -> is_blocked line = false ->
  process_line date_filter messages line = Ok messages' ->
  dict_get qid messages' = Some (merged line (dict_item qid messages))
  /\ forall qid', qid' <> qid ->
       dict_get qid' messages' = dict_get qid' messages.
Proof.
  intros Hq Hb. rewrite (process_line_unfold _ _ _ _ Hq), Hb.
  destruct (String.eqb (m_time (dict_item qid messages)) "-"
            && day_too_long line); [discriminate|].
  intros H. injection H as <-. split.
  - apply dict_get_set_same.
  - intros q' Hne. rewrite dict_get_set_other by exact Hne.
    now apply with_entry_other.
Qed.


(** A line that does not carry the queue id [qid] leaves its entry alone. *)
Lemma process_line_other (date_filter : string) (messages : dict)
    (line qid : string) (messages' : dict) :
  extract_queue_id line <> Some qid ->
  process_line date_filter messages line = Ok messages' ->
  dict_get qid messages' = dict_get qid messages.
Proof.
  intros Hq H. destruct (extract_queue_id line) as [q|] eqn:E.
  - assert (Hne : qid <> q) by congruence.
    destruct (is_blocked line) eqn:Hb.
    + destruct (process_line_blocked date_filter messages line q E Hb)
        as (m' & H1 & _ & H3). rewrite H1 in H. injection H as <-. auto.
    + destruct (process_line_standard date_filter messages line q messages'
                  E Hb H) as [_ H3]. auto.
  - unfold process_line in H. rewrite E in H. simpl in H.
    now injection H as <-.
Qed.

(** A line whose day is within the digit limit is processed without an
    error. *)
Lemma process_line_returns (date_filter : string) (messages : dict)
    (line : string) :
  day_too_long line = false ->
  exists messages', process_line date_filter messages line = Ok messages'.
Proof.
  intros Hd. destruct (extract_queue_id line) as [q|] eqn:E.
  - rewrite (process_line_unfold _ _ _ _ E), Hd, andb_false_r.
    destruct (is_blocked line); eexists; reflexivity.
  - exists messages. unfold process_line. rewrite E. now simpl.
Qed.

(** ** Blocked lines *)



(** C7, as stated, fails: the string stored is the raw date-filter
    argument whether or not a filter is active.  ["yesterday"] is no
    calendar date and no integer, so neither a threshold nor a list of
    date patterns is in force and every line is processed; the blocked
    entry still gets ["yesterday"] as its time, not ["-"]. *)
Lemma inactive_date_filter_is_stored_counterexample :
  parse_date_time_for_comparison spec_example_now "yesterday" None = Ok None
  /\ parse_date_filter spec_example_now "yesterday" None = Ok None
  /\ process_logs spec_example_now [reject_line] "yesterday" None
     = Ok [("AA11BB22CC33",
            mkmsg "c@z.com" "-" "-" "blocked" "No" "yesterday")]
  /\ "yesterday" <> "-".
Proof. repeat split; try (vm_compute; reflexivity). discriminate. Qed.

(** C7, amended.  On the blocked overwrite the time of the entry becomes
    the date filter string as it was given whenever that string is not
    empty, whether or not it yields an active filter, and ["-"] when it
    is empty; the timestamp of the blocking line itself is not used. *)
Theorem blocked_line_time_is_date_filter :
  forall (date_filter : string) (messages : dict) (line qid : string),
    extract_queue_id line = Some qid ->
    is_blocked line = true ->
    exists messages' m,
      process_line date_filter messages line = Ok messages'
      /\ dict_get qid messages' = Some m
      /\ (date_filter <> "" -> m_time m = date_filter)
      /\ (date_filter = "" -> m_time m = "-").
Proof.
  intros df messages line qid Hq Hb.
  destruct (process_line_blocked df messages line qid Hq Hb)
    as (messages' & H1 & H2 & _).
  exists messages', (blocked_message df line).
  repeat split; auto; intros H; simpl.
  - apply nonempty_true in H. now rewrite H.
  - now subst df.
Qed.

Lemma blocked_line_time_is_date_filter_witness :
  exists messages' m,
    process_line "1" earlier_entry reject_line = Ok messages'
    /\ dict_get "AA11BB22CC33" messages' = Some m
    /\ ("1" <> "" -> m_time m = "1")
    /\ ("1" = "" -> m_time m = "-").
Proof.
  exact (blocked_line_time_is_date_filter "1" earlier_entry reject_line
           "AA11BB22CC33" eq_refl eq_refl).
Defined.

(** The rejected line has a timestamp of its own, which a standard line
    would have stored. *)
Example reject_line_own_timestamp :
  timestamp_of reject_line = Some "5 Dec 10:00:09"
  /\ process_line "1" [] reject_line
     = Ok [("AA11BB22CC33", mkmsg "c@z.com" "-" "-" "blocked" "No" "1")]
  /\ process_line "" [] reject_line
     = Ok [("AA11BB22CC33", mkmsg "c@z.com" "-" "-" "blocked" "No" "-")].
Proof. repeat split; vm_compute; reflexivity. Qed.

(** ** Standard lines *)



(** A standard line whose day has 4301 digits: [int()] refuses it, and
    the line is not processed; with the time of the entry already set the
    timestamp is not looked up and the line merges as any other. *)
Example over_long_day_raises :
  day_too_long long_day_line = true
  /\ process_line "" [] long_day_line = Raise ValueError
  /\ process_line ""
       [("ABCDEF1234", mkmsg "-" "-" "-" "-" "No" "5 Dec 10:00:00")]
       long_day_line
     = Ok [("ABCDEF1234",
            mkmsg "a@x.com" "-" "-" "-" "No" "5 Dec 10:00:00")].
Proof. split; [|split]; vm_compute; reflexivity. Qed.

(** Two lines for one id fed in both orders: the sender is that of the
    line fed last, the time that of the line fed first. *)
Example reversed_order_changes_sender_not_first_time :
  process_logs (Datetime.mkdt 2025 12 5 12 0 0)
               [from_line; other_from_line] "" None
  = Ok [("ABCDEF1234", mkmsg "d@w.com" "-" "-" "-" "No" "5 Dec 10:00:00")]
  /\ process_logs (Datetime.mkdt 2025 12 5 12 0 0)
                  [other_from_line; from_line] "" None
     = Ok [("ABCDEF1234", mkmsg "a@x.com" "-" "-" "-" "No" "5 Dec 10:00:07")].
Proof. split; vm_compute; reflexivity. Qed.

(** ** Blocked is not final *)

Lemma has_queue_id_true (qid line : string) :
  has_queue_id qid line = true <-> extract_queue_id line = Some qid.
Proof.
  unfold has_queue_id. destruct (extract_queue_id line) as [q|].
  - rewrite String.eqb_eq. split; congruence.
  - split; discriminate.
Qed.

(** C6, as stated, fails: an entry that a deferred line has set to
    ["blocked"] becomes ["sent"] when the retry succeeds. *)
Lemma blocked_then_sent_counterexample :
  process_line "" [] deferred_line
  = Ok [("ABCDEF1234", mkmsg "-" "b@y.com" "-" "blocked" "No" "-")]
  /\ extract_queue_id retry_sent_line = Some "ABCDEF1234"
  /\ process_line ""
       [("ABCDEF1234", mkmsg "-" "b@y.com" "-" "blocked" "No" "-")]
       retry_sent_line
     = Ok [("ABCDEF1234",
            mkmsg "-" "b@y.com" "-" "sent" "No" "5 Dec 10:05:01")]
  /\ "sent" <> "blocked".
Proof. repeat split; try (vm_compute; reflexivity). discriminate. Qed.

(** C6, amended.  Once the entry of a queue id has status ["blocked"],
    a later line that is processed changes the status only if it carries
    that id, is not itself blocked, and has [status=sent]; the status is
    then ["sent"].  Every other line leaves it ["blocked"].  A line whose
    day is within the digit limit of [int()] is always processed. *)
Theorem blocked_status_changes_only_to_sent :
  forall (date_filter : string) (messages : dict) (line qid : string)
         (m : message),
    dict_get qid messages = Some m ->
    m_status m = "blocked" ->
    (day_too_long line = false ->
     exists messages',
       process_line date_filter messages line = Ok messages')
    /\ forall messages',
         process_line date_filter messages line = Ok messages' ->
         exists m',
           dict_get qid messages' = Some m'
           /\ m_status m'
              = (if has_queue_id qid line
                    && negb (is_blocked line)
                    && contains "status=sent" line
                 then "sent" else "blocked").
Proof.
  intros df messages line qid m Hm Hst. split.
  { apply process_line_returns. }
  intros messages' H1. unfold has_queue_id.
  destruct (extract_queue_id line) as [q|] eqn:Hq.
  - destruct (String.eqb q qid) eqn:E.
    + apply String.eqb_eq in E. subst q. cbn [andb].
      destruct (is_blocked line) eqn:Hb.
      * destruct (process_line_blocked df messages line qid Hq Hb)
          as (messages0 & G1 & G2 & _).
        rewrite G1 in H1. injection H1 as <-.
        exists (blocked_message df line). auto.
      * destruct (process_line_standard df messages line qid messages'
                    Hq Hb H1) as [H2 _].
        exists (merged line (dict_item qid messages)).
        split; [exact H2|].
        unfold dict_item. rewrite Hm. cbn [merged m_status negb andb].
        now rewrite Hst.
    + apply String.eqb_neq in E.
      assert (H2 := process_line_other df messages line qid messages').
      rewrite Hq in H2. exists m. rewrite H2; auto. congruence.
  - assert (H2 := process_line_other df messages line qid messages').
    rewrite Hq in H2. exists m. rewrite H2; auto. discriminate.
Qed.

Lemma blocked_status_changes_only_to_sent_witness :
  exists messages' m',
    process_line ""
      [("ABCDEF1234", mkmsg "-" "b@y.com" "-" "blocked" "No" "-")]
      retry_sent_line = Ok messages'
    /\ dict_get "ABCDEF1234" messages' = Some m'
    /\ m_status m' = "sent".
Proof.
  destruct (blocked_status_changes_only_to_sent ""
              [("ABCDEF1234", mkmsg "-" "b@y.com" "-" "blocked" "No" "-")]
              retry_sent_line "ABCDEF1234"
              (mkmsg "-" "b@y.com" "-" "blocked" "No" "-") eq_refl eq_refl)
    as [Hret Hst].
  destruct (Hret eq_refl) as [messages' H].
  destruct (Hst messages' H) as (m' & Hm & Hs).
  exists messages', m'. auto.
Defined.

(** ** Empty addresses *)

(** C10, as stated, fails: a line may contain [from=<>] and still set
    the sender, because the field is taken from the first [from=<...>]
    of the line only.  Likewise for the recipient. *)
Lemma line_with_empty_address_sets_field_counterexample :
  contains "from=<>" second_sender_line = true
  /\ is_blocked second_sender_line = false
  /\ process_line "" [] second_sender_line
     = Ok [("ABCDEF1234", mkmsg "a@x.com" "-" "-" "-" "No" "5 Dec 10:00:09")]
  /\ contains "to=<>" second_recipient_line = true
  /\ is_blocked second_recipient_line = true
  /\ process_line "" [] second_recipient_line
     = Ok [("ABCDEF1234", mkmsg "-" "b@y.com" "-" "blocked" "No" "-")]
  /\ "a@x.com" <> "-" /\ "b@y.com" <> "-".
Proof. repeat split; try (vm_compute; reflexivity); discriminate. Qed.

(** C10, amended.  When the sender (recipient) pattern matches the line
    with an empty address, that is, when the first [from=<] ([to=<]) of
    the line is closed at once, the line does not set that field: a
    standard line that is processed keeps the value the entry had, a
    blocked line stores ["-"].  The line is processed without an error
    when the day of its timestamp is within the digit limit of [int()]. *)
Theorem empty_address_sets_nothing :
  forall (date_filter : string) (messages : dict) (line qid : string)
         (recipient : bool),
    let field := if recipient then m_to else m_from in
    extract_queue_id line = Some qid ->
    extract_field line (if recipient then to_re else from_re) = Some "" ->
    (day_too_long line = false ->
     exists messages',
       process_line date_filter messages line = Ok messages')
    /\ forall messages',
         process_line date_filter messages line = Ok messages' ->
         exists m,
           dict_get qid messages' = Some m
           /\ field m = (if is_blocked line then "-"
                         else field (dict_item qid messages)).
Proof.
  intros df messages line qid recipient field Hq E. split.
  { apply process_line_returns. }
  intros messages' H1.
  destruct (is_blocked line) eqn:Hb.
  - destruct (process_line_blocked df messages line qid Hq Hb)
      as (messages0 & G1 & G2 & _).
    rewrite G1 in H1. injection H1 as <-.
    exists (blocked_message df line). split; [exact G2|].
    subst field. destruct recipient;
      cbn [blocked_message m_from m_to]; now rewrite E.
  - destruct (process_line_standard df messages line qid messages'
                Hq Hb H1) as [H2 _].
    exists (merged line (dict_item qid messages)). split; [exact H2|].
    subst field. destruct recipient;
      cbn [merged m_from m_to]; now rewrite E.
Qed.

Lemma empty_address_sets_nothing_witness :
  (exists messages' m,
     process_line ""
       [("ABCDEF1234", mkmsg "a@x.com" "-" "-" "-" "No" "5 Dec 10:00:00")]
       bounce_line = Ok messages'
     /\ dict_get "ABCDEF1234" messages' = Some m
     /\ m_from m = "a@x.com")
  /\ (exists messages' m,
        process_line ""
          [("ABCDEF1234",
            mkmsg "a@x.com" "b@y.com" "-" "-" "No" "5 Dec 10:00:00")]
          null_recipient_line = Ok messages'
        /\ dict_get "ABCDEF1234" messages' = Some m
        /\ m_to m = "-").
Proof.
  split.
  - destruct (empty_address_sets_nothing ""
                [("ABCDEF1234",
                  mkmsg "a@x.com" "-" "-" "-" "No" "5 Dec 10:00:00")]
                bounce_line "ABCDEF1234" false eq_refl eq_refl)
      as [Hret Hkeep].
    destruct (Hret eq_refl) as [messages' H].
    destruct (Hkeep messages' H) as (m & Hm & Hf).
    exists messages', m. auto.
  - destruct (empty_address_sets_nothing ""
                [("ABCDEF1234",
                  mkmsg "a@x.com" "b@y.com" "-" "-" "No" "5 Dec 10:00:00")]
                null_recipient_line "ABCDEF1234" true eq_refl eq_refl)
      as [Hret Hkeep].
    destruct (Hret eq_refl) as [messages' H].
    destruct (Hkeep messages' H) as (m & Hm & Hf).
    exists messages', m. auto.
Defined.

Example bounce_line_sender_is_empty :
  extract_field bounce_line from_re = Some ""
  /\ process_line ""
       [("ABCDEF1234", mkmsg "a@x.com" "-" "-" "-" "No" "5 Dec 10:00:00")]
       bounce_line
     = Ok [("ABCDEF1234",
            mkmsg "a@x.com" "-" "2048" "-" "No" "5 Dec 10:00:00")].
Proof. split; vm_compute; reflexivity. Qed.

(** Which lines have an empty match: those whose first [from=<] (or
    [to=<]) is closed at once. *)

Lemma prefix_app_left (sub a b : string) :
  String.length sub <= String.length a -> prefix sub (a ++ b) = prefix sub a.
Proof.
  revert a; induction sub as [|c sub IH]; intros a H.
  - destruct a, b; reflexivity.
  - destruct a as [|x a]; simpl in H; [lia|]. simpl.
    destruct (ascii_dec c x); [apply IH; lia | reflexivity].
Qed.

Lemma lits_no_prefix {R : Type} (l : string) (k : cont (R := R))
    (prev : option ascii) (s : string) :
  prefix l s = false -> lits l k prev s = None.
Proof.
  revert prev s; induction l as [|c l IH]; intros prev s H.
  - now destruct s.
  - destruct s as [|a s]; [reflexivity|]. simpl in H. cbn [lits lit].
    destruct (ascii_dec c a) as [->|Hne].
    + rewrite Ascii.eqb_refl. now apply IH.
    + destruct (Ascii.eqb a c) eqn:E; [|reflexivity].
      apply Ascii.eqb_eq in E. congruence.
Qed.

Lemma contains_false_step (sub : string) (a : ascii) (s : string) :
  contains sub (String a s) = false ->
  prefix sub (String a s) = false /\ contains sub s = false.
Proof. cbn [contains]. now intros H%orb_false_iff. Qed.

Lemma contains_false_suffix (sub pre s : string) :
  contains sub (pre ++ s) = false -> contains sub s = false.
Proof.
  induction pre as [|a pre IH]; simpl append; [easy|].
  intros H. apply contains_false_step in H. now apply IH.
Qed.

Lemma length_app (a b : string) :
  String.length (a ++ b) = String.length a + String.length b.
Proof. induction a as [|x a IH]; simpl; [reflexivity | now rewrite IH]. Qed.

(** The search skips a prefix [pre] in which the literal start [l] of the
    pattern has no match. *)
Lemma search_from_first {R : Type} (l : string) (k : cont (R := R))
    (s : string) (r : R) (pre : string) :
  (forall prev, lits l k prev s = Some r) ->
  (forall pre1 pre2, pre = pre1 ++ pre2 -> pre2 <> "" ->
     prefix l (pre2 ++ s) = false) ->
  forall prev, search_from (lits l k) prev (pre ++ s) = Some r.
Proof.
  intros Hs. induction pre as [|a pre IH]; intros Hpre prev.
  - simpl append. destruct s; cbn [search_from]; now rewrite Hs.
  - simpl append. cbn [search_from].
    rewrite lits_no_prefix
      by (apply (Hpre "" (String a pre)); [reflexivity | discriminate]).
    apply IH. intros pre1 pre2 -> Hne.
    now apply (Hpre (String a pre1) pre2).
Qed.

Lemma no_earlier_occurrence (l0 : string) (c : ascii) (pre rest : string) :
  contains (l0 ++ String c "") (pre ++ l0) = false ->
  forall pre1 pre2, pre = pre1 ++ pre2 -> pre2 <> "" ->
    prefix (l0 ++ String c "") (pre2 ++ (l0 ++ String c "") ++ rest) = false.
Proof.
  intros H pre1 pre2 -> Hne.
  rewrite append_assoc in H. apply contains_false_suffix in H.
  replace (pre2 ++ (l0 ++ String c "") ++ rest)
    with ((pre2 ++ l0) ++ String c rest)
    by (now rewrite !append_assoc).
  rewrite prefix_app_left.
  - destruct (pre2 ++ l0) eqn:E; cbn [contains] in H;
      now apply orb_false_iff in H.
  - rewrite !length_app. destruct pre2; [congruence | simpl; lia].
Qed.

(** A line whose first [from=<] is closed at once has the empty sender
    match; likewise for [to=<]. *)
Lemma first_from_bracket_empty (pre post : string) :
  contains "from=<" (pre ++ "from=") = false ->
  extract_field (pre ++ "from=<>" ++ post) from_re = Some "".
Proof.
  intros H. unfold extract_field, search, from_re.
  apply search_from_first.
  - intros prev. reflexivity.
  - apply (no_earlier_occurrence "from=" "<" pre (String ">" post) H).
Qed.

Lemma first_to_bracket_empty (pre post : string) :
  contains "to=<" (pre ++ "to=") = false ->
  extract_field (pre ++ "to=<>" ++ post) to_re = Some "".
Proof.
  intros H. unfold extract_field, search, to_re.
  apply search_from_first.
  - intros prev. reflexivity.
  - apply (no_earlier_occurrence "to=" "<" pre (String ">" post) H).
Qed.

(** ** The search filter of the report *)

Lemma all_chars_complete (c : ascii) : In c all_chars.
Proof.
  unfold all_chars. rewrite <- (ascii_nat_embedding c).
  apply in_map, in_seq. pose proof (nat_ascii_bounded c). lia.
Qed.

(** [lower] sends two characters to one exactly when they are the same
    letter: checked on the 256 x 256 pairs. *)
Lemma lower_char_same_letter (a b : ascii) :
  Ascii.eqb (lower_char a) (lower_char b) = same_letter a b.
Proof.
  assert (H : forallb (fun x =>
                forallb (fun y =>
                  Bool.eqb (Ascii.eqb (lower_char x) (lower_char y))
                           (same_letter x y)) all_chars) all_chars = true)
    by (vm_compute; reflexivity).
  rewrite forallb_forall in H.
  specialize (H a (all_chars_complete a)).
  rewrite forallb_forall in H.
  specialize (H b (all_chars_complete b)).
  now apply Bool.eqb_prop in H.
Qed.

Lemma lower_eq_same_text (s : string) :
  forall t, lower s = lower t <-> same_text s t = true.
Proof.
  induction s as [|a s IH]; intros [|b t]; cbn [lower same_text];
    try (split; [discriminate | discriminate]); [tauto|].
  rewrite andb_true_iff, <- lower_char_same_letter, Ascii.eqb_eq, <- IH.
  split.
  - intros H. injection H as H1 H2. auto.
  - intros [H1 H2]. now rewrite H1, H2.
Qed.

Lemma lower_app (a b : string) : lower (a ++ b) = lower a ++ lower b.
Proof. induction a as [|c a IH]; simpl; [reflexivity | now rewrite IH]. Qed.

Lemma lower_app_inv (a b : string) :
  forall s, lower s = a ++ b ->
    exists s1 s2, s = s1 ++ s2 /\ lower s1 = a /\ lower s2 = b.
Proof.
  induction a as [|c a IH]; intros s H.
  - exists "", s. auto.
  - destruct s as [|x s]; [discriminate|]. simpl in H.
    injection H as Hc Hs. destruct (IH s Hs) as (s1 & s2 & -> & H1 & H2).
    exists (String x s1), s2. simpl. now rewrite Hc, H1.
Qed.

(** The test of the report, [search_lower in field.lower()], is
    containment with letter case aside. *)
Lemma contains_lower_spec (term field : string) :
  contains (lower term) (lower field) = true
  <-> is_substring_nocase term field.
Proof.
  rewrite contains_spec. unfold is_substring, is_substring_nocase. split.
  - intros (pre & post & H).
    apply lower_app_inv in H. destruct H as (f1 & f2 & -> & H1 & H2).
    apply lower_app_inv in H2. destruct H2 as (mid & f3 & -> & H2 & H3).
    exists f1, mid, f3. split; [reflexivity|]. now apply lower_eq_same_text.
  - intros (pre & mid & post & -> & H). apply lower_eq_same_text in H.
    exists (lower pre), (lower post). now rewrite !lower_app, H.
Qed.

Lemma field_test_spec (term field : string) :
  negb (String.eqb field "-") && contains (lower term) (lower field) = true
  <-> field_matches term field.
Proof.
  unfold field_matches.
  rewrite andb_true_iff, negb_true_iff, String.eqb_neq, contains_lower_spec.
  reflexivity.
Qed.

Lemma search_keeps_spec (term search_type : string) (info : message) :
  search_keeps (lower term) search_type info = true
  <-> message_matches term search_type info.
Proof.
  unfold search_keeps, message_matches.
  destruct (String.eqb search_type "sender"); [apply field_test_spec|].
  destruct (String.eqb search_type "recipient"); [apply field_test_spec|].
  cbn zeta. rewrite orb_true_iff, !field_test_spec. reflexivity.
Qed.

Lemma message_matches_useful (term search_type : string) (info : message) :
  message_matches term search_type info -> useful info = true.
Proof.
  unfold message_matches, field_matches, useful.
  destruct (String.eqb search_type "sender");
    [|destruct (String.eqb search_type "recipient")].
  - intros [H _]. apply String.eqb_neq in H. now rewrite H.
  - intros [H _]. apply String.eqb_neq in H. rewrite H.
    now rewrite orb_true_r.
  - intros [[H _]|[H _]]; apply String.eqb_neq in H; rewrite H;
      [reflexivity | now rewrite orb_true_r].
Qed.

(** C8.  With a non-empty search term, a message is shown only if it
    matches the term: under ["sender"] its sender is set and contains the
    term as a case-insensitive substring (a stretch of the field is the
    term up to the case of its letters), under ["recipient"] its
    recipient does, and under any other target (["both"]) one of the two
    does.  A field that is still ["-"] never matches.  Without a status
    filter these are exactly the messages shown. *)
Theorem search_term_matches_set_fields :
  forall (messages : dict) (search_term search_type : string)
         (status_filter : option string) (qid : string) (info : message),
    search_term <> "" ->
    (In (qid, info)
        (print_report_rows messages search_term search_type status_filter) ->
     In (qid, info) messages
     /\ message_matches search_term search_type info)
    /\ (In (qid, info)
           (print_report_rows messages search_term search_type None)
        <-> In (qid, info) messages
            /\ message_matches search_term search_type info).
Proof.
  intros messages term ty status qid info Hne.
  apply nonempty_true in Hne.
  assert (Hnone :
    In (qid, info) (print_report_rows messages term ty None)
    <-> In (qid, info) messages /\ message_matches term ty info).
  { unfold print_report_rows. rewrite Hne. cbn [truthy].
    rewrite !filter_In. cbn [snd]. rewrite search_keeps_spec.
    split.
    - intros [[H1 _] H2]. auto.
    - intros [H1 H2]. repeat split; auto.
      now apply message_matches_useful with (term := term) (search_type := ty). }
  split; [|exact Hnone].
  intros H. apply Hnone.
  unfold print_report_rows in *. rewrite Hne in *. cbn [truthy].
  destruct (truthy status); [|exact H].
  apply filter_In in H. apply H.
Qed.

Lemma search_term_matches_set_fields_witness :
  (In ("ABCDEF1234",
       mkmsg "alice@Example.COM" "bob@other.org" "512" "sent" "No" "-")
      (print_report_rows report_messages "EXAMPLE.com" "both"
                         (Some "success")) ->
   In ("ABCDEF1234",
       mkmsg "alice@Example.COM" "bob@other.org" "512" "sent" "No" "-")
      report_messages
   /\ message_matches "EXAMPLE.com" "both"
        (mkmsg "alice@Example.COM" "bob@other.org" "512" "sent" "No" "-"))
  /\ (In ("ABCDEF1234",
          mkmsg "alice@Example.COM" "bob@other.org" "512" "sent" "No" "-")
         (print_report_rows report_messages "EXAMPLE.com" "both" None)
      <-> In ("ABCDEF1234",
              mkmsg "alice@Example.COM" "bob@other.org" "512" "sent" "No" "-")
             report_messages
          /\ message_matches "EXAMPLE.com" "both"
               (mkmsg "alice@Example.COM" "bob@other.org" "512" "sent" "No"
                      "-")).
Proof.
  apply (search_term_matches_set_fields report_messages "EXAMPLE.com"
           "both" (Some "success") "ABCDEF1234").
  discriminate.
Defined.

(** A term and a field that differ in the case of their letters: the
    term is not in the field as it stands, and the message is shown. *)
Example mixed_case_term_matches :
  message_matches "EXAMPLE.com" "both"
    (mkmsg "alice@Example.COM" "bob@other.org" "512" "sent" "No" "-")
  /\ contains "EXAMPLE.com" "alice@Example.COM" = false
  /\ In ("ABCDEF1234",
         mkmsg "alice@Example.COM" "bob@other.org" "512" "sent" "No" "-")
        (print_report_rows report_messages "EXAMPLE.com" "both" None).
Proof.
  split; [|split; [reflexivity | now left]].
  left. split; [discriminate|].
  exists "alice@", "Example.COM", "". split; reflexivity.
Qed.

(** The term ["example.com"] under ["recipient"]: the message whose
    sender alone contains it is left out, and so is the one whose
    recipient is unset. *)
Example recipient_search_excludes_sender_match :
  print_report_rows report_messages "example.com" "recipient" None
  = [("AA11BB22CC33",
      mkmsg "carol@z.com" "dave@example.com" "-" "blocked" "No" "-")]
  /\ print_report_rows report_messages "example.com" "sender" None
     = [("ABCDEF1234",
         mkmsg "alice@Example.COM" "bob@other.org" "512" "sent" "No" "-");
        ("0123456789AB", mkmsg "erin@example.com" "-" "100" "-" "No" "-")]
  /\ print_report_rows report_messages "EXAMPLE.com" "both" None
     = report_messages.
Proof. repeat split; vm_compute; reflexivity. Qed.

(** ** The stored timestamp *)

Lemma dict_item_get (qid : string) (messages : dict) (m : message) :
  dict_get qid messages = Some m -> dict_item qid messages = m.
Proof. unfold dict_item. now intros ->. Qed.

Lemma dict_item_same_get (qid : string) (a b : dict) :
  dict_get qid a = dict_get qid b -> dict_item qid a = dict_item qid b.
Proof. unfold dict_item. now intros ->. Qed.

Section Scan.
Variable now : datetime.
Variable start_datetime : option datetime.
Variable date_patterns : option (list string).
Variable date_filter : string.
Variable qid : string.

(** Over a scan in which no processed line of [qid] is blocked, the time
    of its entry is the one it had, or else the first one observed. *)
Lemma scan_first_timestamp (lines : list string) :
  forall messages messages',
    scan now start_datetime date_patterns date_filter lines messages
    = Ok messages' ->
    (forall line, In line lines ->
       processed_for now start_datetime date_patterns qid line = true ->
       is_blocked line = false) ->
    m_time (dict_item qid messages')
    = (if String.eqb (m_time (dict_item qid messages)) "-"
       then first_timestamp
              (filter (processed_for now start_datetime date_patterns qid) lines)
       else m_time (dict_item qid messages)).
Proof.
  induction lines as [|line rest IH]; intros messages messages' Hscan Hnb.
  - simpl in Hscan. injection Hscan as <-. cbn [filter first_timestamp].
    destruct (String.eqb (m_time (dict_item qid messages)) "-") eqn:E;
      [now apply String.eqb_eq in E | reflexivity].
  - cbn [scan] in Hscan. cbn [filter]. unfold processed_for at 1, kept.
    destruct (passes_date_filter now start_datetime date_patterns line)
      as [keep|e] eqn:Ep; [|discriminate].
    cbn [bind] in Hscan.
    assert (Hrest : forall l, In l rest ->
              processed_for now start_datetime date_patterns qid l = true ->
              is_blocked l = false)
      by (intros l Hl; apply Hnb; now right).
    destruct keep; [|now apply IH].
    cbn [andb].
    destruct (process_line date_filter messages line) as [m1|e] eqn:Ep1;
      [|discriminate].
    cbn [bind] in Hscan. rewrite (IH _ _ Hscan Hrest).
    destruct (has_queue_id qid line) eqn:Hq.
    + assert (Hb : is_blocked line = false).
      { apply Hnb; [now left|]. unfold processed_for, kept.
        now rewrite Ep, Hq. }
      apply has_queue_id_true in Hq.
      destruct (process_line_standard date_filter messages line qid m1
                  Hq Hb Ep1) as [G2 _].
      rewrite (dict_item_get _ _ _ G2). cbn [merged m_time first_timestamp].
      destruct (String.eqb (m_time (dict_item qid messages)) "-") eqn:E.
      * destruct (timestamp_of line) as [ts|] eqn:Et; cbn [or_else].
        -- destruct (timestamp_of_set _ _ Et) as [Hne Hd]. rewrite Hne.
           apply String.eqb_neq in Hd. now rewrite Hd.
        -- reflexivity.
      * now rewrite E.
    + assert (G2 : dict_get qid m1 = dict_get qid messages).
      { apply (process_line_other date_filter messages line qid m1);
          [|exact Ep1].
        intros H. apply has_queue_id_true in H. congruence. }
      now rewrite (dict_item_same_get _ _ _ G2).
Qed.


(** Without a date filter the scan returns when the day of every line is
    within the digit limit of [int()]. *)
Lemma scan_no_filter_total (lines : list string) :
  (forall line, In line lines -> day_too_long line = false) ->
  forall messages, exists messages',
    scan now None None date_filter lines messages = Ok messages'.
Proof.
  induction lines as [|line rest IH]; intros Hd messages.
  - now exists messages.
  - cbn [scan passes_date_filter truthy_list bind].
    destruct (process_line_returns date_filter messages line) as (m1 & ->).
    { apply Hd. now left. }
    cbn [bind]. apply IH. intros l Hl. apply Hd. now right.
Qed.

End Scan.

(** C9, as stated, fails: for the two-line example of the specification
    the stored time is ["5 Dec 10:00:00"], not the text of the log,
    ["Dec  5 10:00:00"]. *)
Lemma stored_time_is_reformatted_counterexample :
  process_logs spec_example_now [from_line; sent_line] "" None
  = Ok [("ABCDEF1234",
         mkmsg "a@x.com" "b@y.com" "512" "sent" "No" "5 Dec 10:00:00")]
  /\ prefix "Dec  5 10:00:00" from_line = true
  /\ "5 Dec 10:00:00" <> "Dec  5 10:00:00".
Proof. repeat split; try (vm_compute; reflexivity). discriminate. Qed.

(** C9, amended.  Over a scan in which no processed line of a queue id
    is blocked, the time stored for it is the first timestamp observed on
    its processed lines (["-"] when there is none), re-rendered at
    extraction as the day as an integer, the month name and the time of
    day, ["5 Dec 10:00:00"] for the two-line example.  Without a date
    filter the scan returns when the day of every line is within the
    digit limit of [int()]. *)
Theorem stored_time_is_first_observed_day_first :
  forall (now : datetime) (start_datetime : option datetime)
         (date_patterns : option (list string)) (date_filter : string)
         (lines : list string) (qid : string),
    (forall line, In line lines ->
       processed_for now start_datetime date_patterns qid line = true ->
       is_blocked line = false) ->
    (forall messages',
       scan now start_datetime date_patterns date_filter lines []
       = Ok messages' ->
       m_time (dict_item qid messages')
       = first_timestamp
           (filter (processed_for now start_datetime date_patterns qid)
                   lines))
    /\ (start_datetime = None -> date_patterns = None ->
        (forall line, In line lines -> day_too_long line = false) ->
        exists messages',
          scan now start_datetime date_patterns date_filter lines []
          = Ok messages')
    /\ (forall line month d time,
          search timestamp_re line = Some (month, d, time) ->
          timestamp_of line
          = Some (py_str (Z.of_N (digits_value d))
                  ++ " " ++ month ++ " " ++ time)).
Proof.
  intros now sd dp df lines qid Hnb. split; [|split].
  - intros messages' Hscan.
    now rewrite (scan_first_timestamp now sd dp df qid lines [] messages'
                   Hscan Hnb).
  - intros -> -> Hd. now apply scan_no_filter_total.
  - intros line month d time H. unfold timestamp_of. now rewrite H.
Qed.

Lemma stored_time_is_first_observed_day_first_witness :
  (forall messages',
     scan spec_example_now None None "" [from_line; sent_line] []
     = Ok messages' ->
     m_time (dict_item "ABCDEF1234" messages') = "5 Dec 10:00:00")
  /\ (@None datetime = None -> @None (list string) = None ->
      (forall line, In line [from_line; sent_line] ->
         day_too_long line = false) ->
      exists messages',
        scan spec_example_now None None "" [from_line; sent_line] []
        = Ok messages')
  /\ (forall line month d time,
        search timestamp_re line = Some (month, d, time) ->
        timestamp_of line
        = Some (py_str (Z.of_N (digits_value d))
                ++ " " ++ month ++ " " ++ time)).
Proof.
  apply (stored_time_is_first_observed_day_first spec_example_now None None
           "" [from_line; sent_line] "ABCDEF1234").
  intros line [<-|[<-|[]]] _; reflexivity.
Defined.

(** ** Lookback days *)

Lemma is_dec_classes (c : ascii) :
  is_dec c = true ->
  is_space c = false /\ isdigit_char c = true /\ is_upper_az c = false.
Proof. each_char c; vm_compute; intros H; repeat split; congruence. Qed.



Lemma isdigit_digits (s : string) :
  forallb_str is_dec s = true -> s <> "" -> isdigit s = true.
Proof.
  intros H Hne. destruct s as [|c s]; [congruence|]. unfold isdigit.
  clear Hne. revert H. generalize (String c s). intros t.
  induction t as [|x t IH]; [reflexivity|]. simpl.
  intros H. apply andb_true_iff in H. destruct H as [Hx Ht].
  destruct (is_dec_classes x Hx) as (_ & -> & _). now apply IH.
Qed.







(** Lookback 1 on 10 December: the lines of the 10th and of the 9th are
    processed, the line of the 8th is not. *)
Example lookback_one_today_and_yesterday :
  parse_date_filter lookback_now "1" None = Ok (Some ["Dec 10"; "Dec  9"])
  /\ process_logs lookback_now lookback_log "1" None
     = Ok [("ABCDEF1234", mkmsg "a@x.com" "-" "512" "-" "No" "10 Dec 08:00:00");
           ("AA11BB22CC33", mkmsg "c@z.com" "-" "99" "-" "No" "9 Dec 23:59:59")].
Proof. split; vm_compute; reflexivity. Qed.

(** ** Where the filters raise *)

(** When the timestamp of the line parses, or the line has none, the
    threshold filter keeps the line exactly when its datetime is at or
    after the start. *)
Lemma threshold_keeps_from_start (now : datetime) (start : datetime)
    (date_patterns : option (list string)) (line : string)
    (line_datetime : option datetime) :
  parse_timestamp_from_line now line = Ok line_datetime ->
  passes_date_filter now (Some start) date_patterns line
  = Ok (match line_datetime with
        | Some dt => Datetime.ge dt start
        | None => false
        end).
Proof.
  intros H. cbn [passes_date_filter should_include_log_line].
  rewrite H. now destruct line_datetime.
Qed.

(** C3 fails on the code.  With the threshold of 5 December active, a
    line whose timestamp has a month name that is no month is not
    excluded: the month lookup raises outside the [try], and the scan is
    aborted; a day too large for a C int does the same with another
    exception.  A line without any timestamp, or with an impossible time
    of day, is excluded as the claim says. *)
Theorem threshold_scan_aborts_on_unparseable_timestamp :
  parse_date_time_for_comparison spec_example_now "5 Dec" None
  = Ok (Some (Datetime.mkdt 2025 12 5 0 0 0))
  /\ parse_timestamp_from_line spec_example_now unknown_month_line
     = Raise ValueError
  /\ process_logs spec_example_now [from_line; unknown_month_line; sent_line]
                  "5 Dec" None
     = Raise ValueError
  /\ process_logs spec_example_now [huge_day_line] "5 Dec" None
     = Raise OverflowError
  /\ process_logs spec_example_now
       ["ABCDEF1234: from=<a@x.com>";
        "Dec  5 99:00:00 ABCDEF1234: to=<b@y.com>";
        "Dec  4 23:59:59 ABCDEF1234: size=1";
        sent_line]
       "5 Dec" None
     = Ok [("ABCDEF1234",
            mkmsg "-" "b@y.com" "512" "sent" "No" "5 Dec 10:00:05")].
Proof. repeat split; vm_compute; reflexivity. Qed.

(** C5 fails on the code.  A date filter whose word looks like a month
    name but is none makes the month lookup raise before any line is
    read, and so does a time filter that is no number next to a date that
    the calendar does not have.  Other unparseable filters do degrade to
    no filter. *)
Theorem unparseable_date_filter_raises :
  process_logs spec_example_now [from_line; sent_line] "7 Foo" None
  = Raise ValueError
  /\ process_logs spec_example_now [from_line; sent_line] "31 Feb" (Some "noon")
     = Raise ValueError
  /\ process_logs spec_example_now [from_line; sent_line] "31 Feb" None
     = process_logs spec_example_now [from_line; sent_line] "" None
  /\ process_logs spec_example_now [from_line; sent_line] "yesterday" (Some "noon")
     = process_logs spec_example_now [from_line; sent_line] "" None.
Proof. repeat split; vm_compute; reflexivity. Qed.

(** * Further properties of the classifier, the aggregator and the report *)

(** ** Where a match lies *)

Lemma last_of_app (prev : option ascii) (a b : string) :
  last_of prev (a ++ b) = last_of (last_of prev a) b.
Proof. revert prev; induction a as [|x a IH]; intros prev; simpl; auto. Qed.

Section ReWhere.
Context {R : Type}.

Lemma rep_go_where (cls : ascii -> bool) (lo : nat) (hi : option nat)
    (k : string -> cont (R := R)) (s : string) :
  forall n acc prev r,
    within_hi hi n ->
    rep_go cls lo hi n acc k prev s = Some r ->
    exists m s',
      s = m ++ s' /\ forallb_str cls m = true
      /\ lo <= n + String.length m /\ within_hi hi (n + String.length m)
      /\ k (acc ++ m) (last_of prev m) s' = Some r.
Proof.
  induction s as [|a s IH]; intros n acc prev r Hn H; cbn [rep_go] in H.
  - destruct (Nat.leb lo n) eqn:E; [|discriminate].
    apply Nat.leb_le in E. exists "", "". rewrite (append_empty_r acc).
    simpl. rewrite Nat.add_0_r. repeat split; auto.
  - assert (Hstop :
      (if Nat.leb lo n then k acc prev (String a s) else None) = Some r ->
      exists m s', String a s = m ++ s' /\ forallb_str cls m = true
        /\ lo <= n + String.length m /\ within_hi hi (n + String.length m)
        /\ k (acc ++ m) (last_of prev m) s' = Some r).
    { intros H'. destruct (Nat.leb lo n) eqn:E; [|discriminate].
      apply Nat.leb_le in E. exists "", (String a s).
      rewrite (append_empty_r acc). simpl. rewrite Nat.add_0_r.
      repeat split; auto. }
    destruct (cls a && below hi n) eqn:Ec; [|now apply Hstop].
    destruct (rep_go cls lo hi (S n) (acc ++ String a "") k (Some a) s)
      as [r0|] eqn:Er; [|now apply Hstop].
    injection H as ->. apply andb_true_iff in Ec. destruct Ec as [Ha Hb].
    apply IH in Er.
    + destruct Er as (m & s' & Hs & Hm & Hlo & Hhi & Hk).
      exists (String a m), s'. simpl. rewrite Ha, Hm.
      replace (n + S (String.length m)) with (S n + String.length m) by lia.
      repeat split; auto; [now rewrite Hs|].
      now rewrite append_assoc in Hk.
    + destruct hi as [h|]; simpl in *; [|exact I].
      apply Nat.ltb_lt in Hb. lia.
Qed.

Lemma rep_where (cls : ascii -> bool) (lo : nat) (hi : option nat)
    (k : string -> cont (R := R)) (prev : option ascii) (s : string) (r : R) :
  rep cls lo hi k prev s = Some r ->
  exists m s',
    s = m ++ s' /\ forallb_str cls m = true
    /\ lo <= String.length m /\ within_hi hi (String.length m)
    /\ k m (last_of prev m) s' = Some r.
Proof.
  intros H. apply rep_go_where in H.
  - destruct H as (m & s' & H). now exists m, s'.
  - destruct hi; simpl; [lia | exact I].
Qed.

Lemma lits_where (l : string) (k : cont (R := R)) :
  forall prev s r,
    lits l k prev s = Some r ->
    exists s', s = l ++ s' /\ k (last_of prev l) s' = Some r.
Proof.
  induction l as [|c l IH]; intros prev s r H; cbn [lits] in H.
  - now exists s.
  - apply lit_inv in H. destruct H as (s1 & -> & H).
    apply IH in H. destruct H as (s' & -> & H). now exists s'.
Qed.

Lemma search_from_where (p : cont (R := R)) (s : string) :
  forall prev r,
    search_from p prev s = Some r ->
    exists pre s', s = pre ++ s' /\ p (last_of prev pre) s' = Some r.
Proof.
  induction s as [|a s IH]; intros prev r H; cbn [search_from] in H.
  - destruct (p prev "") eqn:E; [|discriminate].
    injection H as ->. now exists "", "".
  - destruct (p prev (String a s)) eqn:E.
    + injection H as ->. now exists "", (String a s).
    + apply IH in H. destruct H as (pre & s' & -> & H).
      now exists (String a pre), s'.
Qed.

Lemma wordb_where (k : cont (R := R)) (prev : option ascii) (s : string)
    (r : R) :
  wordb k prev s = Some r ->
  xorb (word_opt prev) (word_opt (head s)) = true /\ k prev s = Some r.
Proof.
  unfold wordb. destruct (xorb (word_opt prev) (word_opt (head s)));
    [auto | discriminate].
Qed.

End ReWhere.

Lemma hex_is_word (c : ascii) : is_hex_upper c = true -> is_word c = true.
Proof. each_char c; vm_compute; congruence. Qed.

Lemma last_of_word (cls : ascii -> bool) (m : string) :
  (forall c, cls c = true -> is_word c = true) ->
  forallb_str cls m = true -> m <> "" ->
  forall prev, word_opt (last_of prev m) = true.
Proof.
  intros Hc. induction m as [|a m IH]; intros H Hne prev; [congruence|].
  simpl in H. apply andb_true_iff in H. destruct H as [Ha Hm].
  destruct m as [|b m]; [simpl; auto|].
  change (word_opt (last_of (Some a) (String b m)) = true).
  apply IH; [exact Hm | discriminate].
Qed.

(** The queue id is a run of 10 to 12 characters of [A-F0-9] that stands
    alone in the line: no word character touches it on either side. *)
Theorem queue_id_is_standalone_hex_token :
  forall line qid,
    extract_queue_id line = Some qid ->
    10 <= String.length qid <= 12
    /\ forallb_str is_hex_upper qid = true
    /\ exists pre post,
         line = pre ++ qid ++ post
         /\ word_opt (last_of None pre) = false
         /\ word_opt (head post) = false.
Proof.
  intros line qid H. unfold extract_queue_id, search in H.
  apply search_from_where in H. destruct H as (pre & s & Hline & H).
  unfold queue_id_re in H. apply wordb_where in H. destruct H as [Hb1 H].
  apply rep_where in H. destruct H as (m & post & Hs & Hm & Hlo & Hhi & H).
  apply wordb_where in H. destruct H as [Hb2 H]. injection H as <-.
  simpl in Hhi. repeat split; auto.
  exists pre, post. subst s. split; [exact Hline|].
  assert (Hne : m <> "") by (destruct m; [simpl in Hlo; lia | discriminate]).
  assert (Hlast : word_opt (last_of (last_of None pre) m) = true)
    by (apply (last_of_word is_hex_upper); auto using hex_is_word).
  rewrite Hlast in Hb2. simpl in Hb2.
  destruct m as [|a m]; [congruence|].
  simpl in Hm. apply andb_true_iff in Hm. destruct Hm as [Ha _].
  cbn [append head word_opt] in Hb1. rewrite (hex_is_word a Ha) in Hb1.
  split.
  - now destruct (word_opt (last_of None pre)).
  - now destruct (word_opt (head post)).
Qed.

Lemma queue_id_is_standalone_hex_token_witness :
  10 <= String.length "ABCDEF1234" <= 12
  /\ forallb_str is_hex_upper "ABCDEF1234" = true
  /\ exists pre post,
       from_line = pre ++ "ABCDEF1234" ++ post
       /\ word_opt (last_of None pre) = false
       /\ word_opt (head post) = false.
Proof.
  exact (queue_id_is_standalone_hex_token from_line "ABCDEF1234" eq_refl).
Defined.

(** ** What the field patterns capture *)

Lemma bracket_where (l : string) (line a : string) :
  search (lits l (rep not_gt 0 None (fun g => lit ">" (accept g)))) line
  = Some a ->
  forallb_str not_gt a = true
  /\ exists pre post, line = pre ++ l ++ a ++ ">" ++ post.
Proof.
  intros H. unfold search in H.
  apply search_from_where in H. destruct H as (pre & s & -> & H).
  apply lits_where in H. destruct H as (s1 & -> & H).
  apply rep_where in H. destruct H as (m & s2 & -> & Hm & _ & _ & H).
  apply lit_inv in H. destruct H as (post & -> & H). injection H as <-.
  split; [exact Hm|]. now exists pre, post.
Qed.

(** The sender is the text between the first [from=<] that is closed and
    the next [>]; it never contains a [>].  Likewise the recipient, with
    [to=<]. *)
Theorem address_is_text_up_to_closing_bracket :
  forall (recipient : bool) line a,
    extract_field line (if recipient then to_re else from_re) = Some a ->
    forallb_str not_gt a = true
    /\ exists pre post,
         line = pre ++ (if recipient then "to=<" else "from=<")
                    ++ a ++ ">" ++ post.
Proof.
  intros [|] line a H.
  - apply (bracket_where "to=<" line a H).
  - apply (bracket_where "from=<" line a H).
Qed.

Lemma address_is_text_up_to_closing_bracket_witness :
  forallb_str not_gt "b@y.com" = true
  /\ exists pre post, sent_line = pre ++ "to=<" ++ "b@y.com" ++ ">" ++ post.
Proof.
  exact (address_is_text_up_to_closing_bracket true sent_line "b@y.com"
           eq_refl).
Defined.

Section Greedy.
Variable cls : ascii -> bool.
Variable lo : nat.

Lemma rep_go_accept_some (s : string) :
  forall n acc prev,
    lo <= n ->
    rep_go cls lo None n acc (fun g => accept (R := string) g) prev s <> None.
Proof.
  induction s as [|a s IH]; intros n acc prev Hn; cbn [rep_go].
  - apply Nat.leb_le in Hn. rewrite Hn. discriminate.
  - pose proof Hn as Hn'. apply Nat.leb_le in Hn'. rewrite Hn'.
    destruct (cls a && below None n); [|discriminate].
    destruct (rep_go cls lo None (S n) (acc ++ String a "")
                (fun g => accept g) (Some a) s); discriminate.
Qed.

(** With nothing after it in the pattern, the repetition takes the whole
    run. *)
Lemma rep_go_accept_run (s : string) :
  forall n acc prev r,
    rep_go cls lo None n acc (fun g => accept (R := string) g) prev s = Some r ->
    exists m s',
      s = m ++ s' /\ r = acc ++ m /\ forallb_str cls m = true
      /\ lo <= n + String.length m
      /\ match s' with String b _ => cls b = false | EmptyString => True end.
Proof.
  induction s as [|a s IH]; intros n acc prev r H; cbn [rep_go] in H.
  - destruct (Nat.leb lo n) eqn:E; [|discriminate].
    apply Nat.leb_le in E. injection H as <-. exists "", "".
    rewrite (append_empty_r acc). simpl. repeat split; auto; lia.
  - destruct (cls a) eqn:Ha; cbn [andb below] in H.
    + destruct (rep_go cls lo None (S n) (acc ++ String a "")
                  (fun g => accept g) (Some a) s) as [r0|] eqn:Er.
      * injection H as ->. apply IH in Er.
        destruct Er as (m & s' & -> & -> & Hm & Hlo & Hs').
        exists (String a m), s'. simpl. rewrite Ha, Hm, append_assoc.
        repeat split; auto; lia.
      * destruct (Nat.leb lo n) eqn:E; [|discriminate].
        apply Nat.leb_le in E. exfalso.
        apply (rep_go_accept_some s (S n) (acc ++ String a "") (Some a));
          [lia | exact Er].
    + destruct (Nat.leb lo n) eqn:E; [|discriminate].
      apply Nat.leb_le in E. injection H as <-. exists "", (String a s).
      rewrite (append_empty_r acc). simpl. repeat split; auto; lia.
Qed.

End Greedy.

(** The size is the whole run of decimal digits that follows the first
    [size=] that has a digit after it: it is not empty, and the line does
    not go on with a further digit. *)
Theorem size_is_whole_digit_run :
  forall line d,
    extract_field line size_re = Some d ->
    d <> "" /\ forallb_str is_dec d = true
    /\ exists pre post,
         line = pre ++ "size=" ++ d ++ post
         /\ match post with
            | String b _ => is_dec b = false
            | EmptyString => True
            end.
Proof.
  intros line d H. unfold extract_field, search in H.
  apply search_from_where in H. destruct H as (pre & s & -> & H).
  unfold size_re in H. apply lits_where in H. destruct H as (s1 & -> & H).
  unfold rep in H. apply rep_go_accept_run in H.
  destruct H as (m & post & -> & -> & Hm & Hlo & Hpost).
  simpl in Hlo. simpl append at 1. repeat split; auto.
  - destruct m; [simpl in Hlo; lia | discriminate].
  - now exists pre, post.
Qed.

Lemma size_is_whole_digit_run_witness :
  "512" <> "" /\ forallb_str is_dec "512" = true
  /\ exists pre post,
       sent_line = pre ++ "size=" ++ "512" ++ post
       /\ match post with
          | String b _ => is_dec b = false
          | EmptyString => True
          end.
Proof.
  exact (size_is_whole_digit_run sent_line "512" eq_refl).
Defined.

(** ** What every entry of the result looks like *)

Lemma size_where (line d : string) :
  extract_field line size_re = Some d ->
  d <> "" /\ forallb_str is_dec d = true.
Proof.
  intros H. unfold extract_field in H. apply search_inv in H.
  destruct H as (prev & s & H). unfold size_re in H.
  apply lits_where in H. destruct H as (s1 & _ & H).
  apply rep_inv in H. destruct H as (m & p & s2 & _ & Hm & Hlo & H).
  injection H as <-. split; [|exact Hm].
  destruct m; [simpl in Hlo; lia | discriminate].
Qed.

Lemma or_else_address (o : option string) (old : string) :
  (forall a, o = Some a -> forallb_str not_gt a = true) ->
  old <> "" -> forallb_str not_gt old = true ->
  or_else o old <> "" /\ forallb_str not_gt (or_else o old) = true.
Proof.
  intros Ho Hne Hold. destruct o as [[|c a]|]; simpl; auto.
  split; [discriminate|]. now apply (Ho (String c a)).
Qed.

Lemma entry_ok_new : entry_ok new_message.
Proof. unfold entry_ok. simpl. repeat split; auto; discriminate. Qed.

Lemma entry_ok_blocked (date_filter line : string) :
  entry_ok (blocked_message date_filter line).
Proof.
  unfold entry_ok, blocked_message; cbn [m_from m_to m_size m_status m_sg m_time].
  destruct (or_else_address (extract_field line from_re) "-") as [F1 F2];
    [intros a H; apply (bracket_where "from=<" line a H) | discriminate
     | reflexivity |].
  destruct (or_else_address (extract_field line to_re) "-") as [T1 T2];
    [intros a H; apply (bracket_where "to=<" line a H) | discriminate
     | reflexivity |].
  repeat split; auto.
  - destruct (is_sendgrid line); auto.
  - destruct date_filter; simpl; discriminate.
Qed.

Lemma entry_ok_merged (line : string) (m : message) :
  entry_ok m -> entry_ok (merged line m).
Proof.
  intros (Hst & Hsg & Hsz & Hf1 & Hf2 & Ht1 & Ht2 & Htm).
  unfold entry_ok, merged; cbn [m_from m_to m_size m_status m_sg m_time].
  destruct (or_else_address (extract_field line from_re) (m_from m))
    as [F1 F2]; auto;
    [intros a H; apply (bracket_where "from=<" line a H)|].
  destruct (or_else_address (extract_field line to_re) (m_to m))
    as [T1 T2]; auto;
    [intros a H; apply (bracket_where "to=<" line a H)|].
  repeat split; auto.
  - destruct (contains "status=sent" line); auto.
  - destruct (is_sendgrid line); auto.
  - destruct (extract_field line size_re) as [d|] eqn:E; [|exact Hsz].
    destruct (size_where line d E) as [Hne Hd].
    right. destruct d; [congruence|]. simpl. split; [discriminate|exact Hd].
  - destruct (String.eqb (m_time m) "-"); [|exact Htm].
    destruct (timestamp_of line) as [ts|] eqn:E; [|discriminate].
    destruct (timestamp_of_set _ _ E) as [Hne _]. simpl. rewrite Hne.
    now apply nonempty_true.
Qed.

Lemma entries_ok_set (qid : string) (v : message) (messages : dict) :
  entries_ok messages -> entry_ok v -> entries_ok (dict_set qid v messages).
Proof.
  unfold entries_ok. intros H Hv.
  induction messages as [|[k v'] d IH]; simpl.
  - constructor; auto.
  - inversion H; subst. destruct (String.eqb k qid); constructor; auto.
Qed.

Lemma dict_get_In (qid : string) (m : message) (messages : dict) :
  dict_get qid messages = Some m -> In (qid, m) messages.
Proof.
  induction messages as [|[k v] d IH]; simpl; [discriminate|].
  destruct (String.eqb k qid) eqn:E.
  - apply String.eqb_eq in E. intros H. injection H as <-. subst. now left.
  - intros H. right. auto.
Qed.

Lemma entries_ok_item (qid : string) (messages : dict) :
  entries_ok messages -> entry_ok (dict_item qid messages).
Proof.
  intros H. unfold dict_item.
  destruct (dict_get qid messages) as [m|] eqn:E; [|apply entry_ok_new].
  apply dict_get_In in E. unfold entries_ok in H.
  rewrite Forall_forall in H. apply (H _ E).
Qed.

Lemma entries_ok_with_entry (qid : string) (messages : dict) :
  entries_ok messages -> entries_ok (with_entry qid messages).
Proof.
  intros H. unfold with_entry.
  destruct (negb (dict_mem qid messages)); [|exact H].
  apply entries_ok_set; [exact H | apply entry_ok_new].
Qed.

Lemma entries_ok_process_line (date_filter : string) (messages messages' : dict)
    (line : string) :
  entries_ok messages ->
  process_line date_filter messages line = Ok messages' ->
  entries_ok messages'.
Proof.
  intros H Hp. destruct (extract_queue_id line) as [qid|] eqn:Hq.
  - rewrite (process_line_ok_inv _ _ _ _ _ Hq Hp).
    destruct (is_blocked line);
      apply entries_ok_set; auto using entries_ok_with_entry,
        entry_ok_blocked, entry_ok_merged, entries_ok_item.
  - unfold process_line in Hp. rewrite Hq in Hp. simpl in Hp.
    now injection Hp as <-.
Qed.

Lemma entries_ok_scan (now : datetime) (start_datetime : option datetime)
    (date_patterns : option (list string)) (date_filter : string)
    (lines : list string) :
  forall messages messages',
    entries_ok messages ->
    scan now start_datetime date_patterns date_filter lines messages
    = Ok messages' ->
    entries_ok messages'.
Proof.
  induction lines as [|line rest IH]; intros messages messages' H Hs.
  - simpl in Hs. now injection Hs as <-.
  - cbn [scan] in Hs.
    destruct (passes_date_filter now start_datetime date_patterns line)
      as [[|]|e]; cbn [bind] in Hs; [| eauto | discriminate].
    destruct (process_line date_filter messages line) as [m1|e] eqn:Ep;
      cbn [bind] in Hs; [|discriminate].
    eapply IH; [|exact Hs]. eapply entries_ok_process_line; eauto.
Qed.

Lemma process_logs_is_scan (now : datetime) (lines : list string)
    (date_filter : string) (time_filter : option string) (messages' : dict) :
  process_logs now lines date_filter time_filter = Ok messages' ->
  exists start_datetime date_patterns,
    scan now start_datetime date_patterns date_filter lines [] = Ok messages'.
Proof.
  unfold process_logs. intros H.
  destruct (if nonempty date_filter
            then parse_date_time_for_comparison now date_filter time_filter
            else Ok None) as [sd|e]; cbn [bind] in H; [|discriminate].
  destruct (if nonempty date_filter && negb (is_some sd)
            then parse_date_filter now date_filter time_filter
            else Ok None) as [dp|e]; cbn [bind] in H; [|discriminate].
  now exists sd, dp.
Qed.

(** Whatever the log and the filters, every entry that [process_logs]
    returns has a status among ["-"], ["sent"] and ["blocked"], a SendGrid
    flag that is ["Yes"] or ["No"], a size that is ["-"] or a run of
    decimal digits, a sender and a recipient that are not empty and hold
    no [>], and a time that is not empty. *)
Theorem process_logs_entries_are_well_formed :
  forall (now : datetime) (lines : list string) (date_filter : string)
         (time_filter : option string) (messages' : dict)
         (qid : string) (m : message),
    process_logs now lines date_filter time_filter = Ok messages' ->
    dict_get qid messages' = Some m ->
    entry_ok m.
Proof.
  intros now lines df tf messages' qid m H Hg.
  destruct (process_logs_is_scan _ _ _ _ _ H) as (sd & dp & Hs).
  assert (Hok : entries_ok messages')
    by (eapply entries_ok_scan; [constructor | exact Hs]).
  unfold entries_ok in Hok. rewrite Forall_forall in Hok.
  apply (Hok _ (dict_get_In _ _ _ Hg)).
Qed.

Lemma process_logs_entries_are_well_formed_witness :
  entry_ok (mkmsg "a@x.com" "b@y.com" "512" "sent" "No" "5 Dec 10:00:00").
Proof.
  exact (process_logs_entries_are_well_formed spec_example_now
           [from_line; sent_line] "" None
           [("ABCDEF1234",
             mkmsg "a@x.com" "b@y.com" "512" "sent" "No" "5 Dec 10:00:00")]
           "ABCDEF1234" _ eq_refl eq_refl).
Defined.

(** ** The summary counts *)

Lemma status_counts_partition (rows : dict) :
  entries_ok rows ->
  sent_count rows + blocked_count rows + unknown_count rows = total_count rows.
Proof.
  unfold sent_count, blocked_count, unknown_count, total_count, status_count.
  induction rows as [|[q m] rows IH]; intros H; [reflexivity|].
  inversion H as [|x l Hm Hrest]; subst. specialize (IH Hrest).
  cbn [snd] in Hm.
  destruct Hm as ([E|[E|E]] & _); cbn [filter snd]; rewrite E;
    simpl; lia.
Qed.

Lemma entries_ok_filter (f : string * message -> bool) (messages : dict) :
  entries_ok messages -> entries_ok (filter f messages).
Proof.
  unfold entries_ok. rewrite !Forall_forall.
  intros H x Hx. apply filter_In in Hx. now apply H.
Qed.

Lemma entries_ok_rows (messages : dict) (search_term search_type : string)
    (status_filter : option string) :
  entries_ok messages ->
  entries_ok (print_report_rows messages search_term search_type status_filter).
Proof.
  intros H. unfold print_report_rows.
  destruct (nonempty search_term), (truthy status_filter);
    repeat apply entries_ok_filter; exact H.
Qed.

(** On the messages of a scan, whatever the search and the status filter,
    the counts of sent, blocked and unknown messages printed under the
    rows add up to the total printed above them: no shown message falls
    outside the three. *)
Theorem summary_counts_add_up :
  forall (now : datetime) (lines : list string) (date_filter : string)
         (time_filter : option string) (messages' : dict)
         (search_term search_type : string) (status_filter : option string),
    process_logs now lines date_filter time_filter = Ok messages' ->
    let rows :=
      print_report_rows messages' search_term search_type status_filter in
    sent_count rows + blocked_count rows + unknown_count rows
    = total_count rows.
Proof.
  intros now lines df tf messages' term ty sf H rows.
  apply status_counts_partition, entries_ok_rows.
  destruct (process_logs_is_scan _ _ _ _ _ H) as (sd & dp & Hs).
  eapply entries_ok_scan; [constructor | exact Hs].
Qed.

Lemma summary_counts_add_up_witness :
  let rows :=
    print_report_rows
      [("ABCDEF1234",
        mkmsg "a@x.com" "b@y.com" "512" "sent" "No" "5 Dec 10:00:00")]
      "x.com" "sender" None in
  sent_count rows + blocked_count rows + unknown_count rows = total_count rows.
Proof.
  apply (summary_counts_add_up spec_example_now [from_line; sent_line] ""
           None
           [("ABCDEF1234",
             mkmsg "a@x.com" "b@y.com" "512" "sent" "No" "5 Dec 10:00:00")]
           "x.com" "sender" None).
  vm_compute. reflexivity.
Defined.

(** ** The keys of the result *)

Lemma mem_In (x : string) (l : list string) : mem x l = true <-> In x l.
Proof.
  unfold mem. rewrite existsb_exists. split.
  - intros (y & Hy & E). apply String.eqb_eq in E. now subst.
  - intros H. exists x. split; [exact H | apply String.eqb_refl].
Qed.

Lemma dict_mem_keys (qid : string) (d : dict) :
  dict_mem qid d = mem qid (map fst d).
Proof.
  unfold dict_mem, mem. induction d as [|[k v] d IH]; simpl; [reflexivity|].
  rewrite (String.eqb_sym qid k).
  destruct (String.eqb k qid); simpl; [reflexivity | exact IH].
Qed.

Lemma dict_set_keys (qid : string) (v : message) (d : dict) :
  map fst (dict_set qid v d)
  = if dict_mem qid d then map fst d else (map fst d ++ [qid])%list.
Proof.
  unfold dict_mem. induction d as [|[k v'] d IH]; simpl; [reflexivity|].
  destruct (String.eqb k qid) eqn:E; simpl; [reflexivity|].
  rewrite IH. now destruct (dict_get qid d).
Qed.

Lemma with_entry_keys (qid : string) (d : dict) :
  map fst (with_entry qid d)
  = if dict_mem qid d then map fst d else (map fst d ++ [qid])%list.
Proof.
  unfold with_entry. destruct (dict_mem qid d) eqn:E; simpl; [reflexivity|].
  now rewrite dict_set_keys, E.
Qed.

Lemma with_entry_mem (qid : string) (d : dict) :
  dict_mem qid (with_entry qid d) = true.
Proof.
  unfold with_entry. destruct (dict_mem qid d) eqn:E; simpl; [exact E|].
  unfold dict_mem. now rewrite dict_get_set_same.
Qed.

Lemma process_line_keys (date_filter : string) (messages messages' : dict)
    (line qid : string) :
  extract_queue_id line = Some qid ->
  process_line date_filter messages line = Ok messages' ->
  map fst messages'
  = if mem qid (map fst messages) then map fst messages
    else (map fst messages ++ [qid])%list.
Proof.
  intros Hq Hp. rewrite (process_line_ok_inv _ _ _ _ _ Hq Hp).
  rewrite <- dict_mem_keys, <- with_entry_keys.
  now rewrite dict_set_keys, with_entry_mem.
Qed.

Lemma filter_filter_ne (x : string) (k : list string) (l : list string) :
  filter (fun y => negb (mem y (k ++ [x])%list)) l
  = filter (fun y => negb (mem y k))
      (filter (fun y => negb (String.eqb x y)) l).
Proof.
  induction l as [|y l IH]; [reflexivity|]. cbn [filter].
  assert (E : mem y (k ++ [x])%list = mem y k || String.eqb x y).
  { unfold mem. rewrite existsb_app. simpl.
    now rewrite orb_false_r, (String.eqb_sym y x). }
  rewrite E. destruct (String.eqb x y); cbn [negb filter].
  - now rewrite orb_true_r.
  - rewrite orb_false_r. destruct (mem y k); cbn [negb]; now rewrite IH.
Qed.

Lemma filter_ne_absorbed (x : string) (k : list string) (l : list string) :
  mem x k = true ->
  filter (fun y => negb (mem y k))
    (filter (fun y => negb (String.eqb x y)) l)
  = filter (fun y => negb (mem y k)) l.
Proof.
  intros Hx. induction l as [|y l IH]; [reflexivity|]. cbn [filter].
  destruct (String.eqb x y) eqn:E; cbn [negb filter].
  - apply String.eqb_eq in E. subst y. now rewrite Hx.
  - now rewrite IH.
Qed.

Lemma scan_keys (now : datetime) (start_datetime : option datetime)
    (date_patterns : option (list string)) (date_filter : string)
    (lines : list string) :
  forall messages messages',
    scan now start_datetime date_patterns date_filter lines messages
    = Ok messages' ->
    map fst messages'
    = (map fst messages
       ++ filter (fun y => negb (mem y (map fst messages)))
            (first_occurrences
               (processed_ids now start_datetime date_patterns lines)))%list.
Proof.
  induction lines as [|line rest IH]; intros messages messages' Hs.
  - simpl in Hs. injection Hs as <-. simpl. now rewrite app_nil_r.
  - cbn [scan] in Hs. cbn [processed_ids]. unfold kept at 1.
    destruct (passes_date_filter now start_datetime date_patterns line)
      as [[|]|e]; cbn [bind] in Hs; [| now apply IH | discriminate].
    destruct (process_line date_filter messages line) as [m1|e] eqn:Ep;
      cbn [bind] in Hs; [|discriminate].
    rewrite (IH _ _ Hs).
    destruct (extract_queue_id line) as [qid|] eqn:Hq.
    + rewrite (process_line_keys _ _ _ _ _ Hq Ep).
      cbn [first_occurrences filter].
      destruct (mem qid (map fst messages)) eqn:Hm; cbn [negb].
      * now rewrite filter_ne_absorbed.
      * now rewrite <- app_assoc, filter_filter_ne.
    + unfold process_line in Ep. rewrite Hq in Ep. simpl in Ep.
      now injection Ep as <-.
Qed.

Lemma first_occurrences_In (x : string) (l : list string) :
  In x (first_occurrences l) <-> In x l.
Proof.
  induction l as [|y l IH]; [reflexivity|]. cbn [first_occurrences].
  simpl. rewrite filter_In, IH. split.
  - intros [H|[H _]]; auto.
  - intros [H|H]; auto.
    destruct (String.eqb y x) eqn:E.
    + apply String.eqb_eq in E. auto.
    + right. auto.
Qed.

Lemma first_occurrences_NoDup (l : list string) :
  NoDup (first_occurrences l).
Proof.
  induction l as [|y l IH]; cbn [first_occurrences]; constructor.
  - rewrite filter_In. intros [_ H]. now rewrite String.eqb_refl in H.
  - now apply NoDup_filter.
Qed.

Lemma dict_get_keys (qid : string) (d : dict) :
  dict_get qid d <> None <-> In qid (map fst d).
Proof.
  rewrite <- mem_In, <- dict_mem_keys. unfold dict_mem.
  destruct (dict_get qid d); split; congruence.
Qed.

(** The keys of the result of a scan are the queue ids of the lines that
    went past the date filter, each once and in the order in which they
    first appeared.  An id that no processed line carries has no entry. *)
Theorem result_keys_are_first_appearances :
  forall (now : datetime) (start_datetime : option datetime)
         (date_patterns : option (list string)) (date_filter : string)
         (lines : list string) (messages' : dict),
    scan now start_datetime date_patterns date_filter lines [] = Ok messages' ->
    map fst messages'
    = first_occurrences (processed_ids now start_datetime date_patterns lines)
    /\ NoDup (map fst messages')
    /\ forall qid,
         dict_get qid messages' <> None
         <-> In qid (processed_ids now start_datetime date_patterns lines).
Proof.
  intros now sd dp df lines messages' Hs.
  assert (E : map fst messages'
              = first_occurrences (processed_ids now sd dp lines)).
  { rewrite (scan_keys _ _ _ _ _ _ _ Hs). simpl.
    induction (first_occurrences (processed_ids now sd dp lines))
      as [|x l IH]; [reflexivity|]. simpl. now rewrite IH. }
  split; [exact E|]. split.
  - rewrite E. apply first_occurrences_NoDup.
  - intros qid. now rewrite dict_get_keys, E, first_occurrences_In.
Qed.

Lemma result_keys_are_first_appearances_witness :
  map fst
    [("ABCDEF1234", mkmsg "a@x.com" "-" "512" "-" "No" "10 Dec 08:00:00");
     ("AA11BB22CC33", mkmsg "c@z.com" "-" "99" "-" "No" "9 Dec 23:59:59")]
  = ["ABCDEF1234"; "AA11BB22CC33"]
  /\ NoDup ["ABCDEF1234"; "AA11BB22CC33"]
  /\ forall qid,
       dict_get qid
         [("ABCDEF1234", mkmsg "a@x.com" "-" "512" "-" "No" "10 Dec 08:00:00");
          ("AA11BB22CC33", mkmsg "c@z.com" "-" "99" "-" "No" "9 Dec 23:59:59")]
       <> None
       <-> In qid ["ABCDEF1234"; "AA11BB22CC33"].
Proof.
  apply (result_keys_are_first_appearances lookback_now None
           (Some ["Dec 10"; "Dec  9"]) "1" lookback_log
           [("ABCDEF1234",
             mkmsg "a@x.com" "-" "512" "-" "No" "10 Dec 08:00:00");
            ("AA11BB22CC33",
             mkmsg "c@z.com" "-" "99" "-" "No" "9 Dec 23:59:59")]).
  vm_compute. reflexivity.
Defined.

(** ** Each entry depends on the lines of its own queue id *)

Section Locality.
Variable now : datetime.
Variable start_datetime : option datetime.
Variable date_patterns : option (list string).
Variable date_filter : string.
Variable qid : string.

Lemma scan_only_own_lines (lines : list string) :
  forall ma mb messages',
    dict_get qid ma = dict_get qid mb ->
    scan now start_datetime date_patterns date_filter lines ma = Ok messages' ->
    exists messages'',
      scan now start_datetime date_patterns date_filter
           (filter (has_queue_id qid) lines) mb = Ok messages''
      /\ dict_get qid messages'' = dict_get qid messages'.
Proof.
  induction lines as [|line rest IH]; intros ma mb messages' Hab Hs.
  - simpl in Hs. injection Hs as <-. exists mb. auto.
  - cbn [scan] in Hs. cbn [filter].
    destruct (passes_date_filter now start_datetime date_patterns line)
      as [keep|e] eqn:Ep; cbn [bind] in Hs; [|discriminate].
    destruct (has_queue_id qid line) eqn:Hq.
    + cbn [scan]. rewrite Ep. cbn [bind].
      destruct keep; [|now apply (IH ma mb)].
      apply has_queue_id_true in Hq.
      rewrite (process_line_unfold _ _ _ _ Hq) in Hs.
      rewrite (process_line_unfold _ _ _ _ Hq).
      rewrite (dict_item_same_get qid ma mb Hab) in Hs.
      destruct (is_blocked line);
        [|destruct (String.eqb (m_time (dict_item qid mb)) "-"
                    && day_too_long line); [discriminate|]];
        cbn [bind] in *;
        (eapply IH; [|exact Hs]);
        now rewrite !dict_get_set_same.
    + destruct keep; [|now apply (IH ma mb)].
      destruct (process_line date_filter ma line) as [m1|e] eqn:G1;
        cbn [bind] in Hs; [|discriminate].
      assert (G2 : dict_get qid m1 = dict_get qid ma).
      { apply (process_line_other date_filter ma line qid m1); [|exact G1].
        intros H. apply has_queue_id_true in H. congruence. }
      apply (IH m1 mb); [congruence | exact Hs].
Qed.

End Locality.

(** The entry of a queue id is decided by the lines that carry that id
    alone: dropping every other line from the log leaves the entry as it
    was (and cannot make the scan fail). *)
Theorem entry_depends_only_on_its_own_lines :
  forall (now : datetime) (start_datetime : option datetime)
         (date_patterns : option (list string)) (date_filter : string)
         (qid : string) (lines : list string) (messages' : dict),
    scan now start_datetime date_patterns date_filter lines [] = Ok messages' ->
    exists messages'',
      scan now start_datetime date_patterns date_filter
           (filter (has_queue_id qid) lines) [] = Ok messages''
      /\ dict_get qid messages'' = dict_get qid messages'.
Proof.
  intros now sd dp df qid lines messages' Hs.
  now apply (scan_only_own_lines now sd dp df qid lines [] []).
Qed.

Lemma entry_depends_only_on_its_own_lines_witness :
  exists messages'',
    scan lookback_now None None "" (filter (has_queue_id "AA11BB22CC33")
                                           lookback_log) []
    = Ok messages''
    /\ dict_get "AA11BB22CC33" messages''
       = Some (mkmsg "c@z.com" "-" "99" "-" "No" "9 Dec 23:59:59").
Proof.
  apply (entry_depends_only_on_its_own_lines lookback_now None None ""
           "AA11BB22CC33" lookback_log
           [("ABCDEF1234",
             mkmsg "a@x.com" "-" "512" "-" "No" "10 Dec 08:00:00");
            ("AA11BB22CC33",
             mkmsg "c@z.com" "-" "99" "-" "No" "9 Dec 23:59:59");
            ("0123456789AB",
             mkmsg "e@v.com" "-" "7" "-" "No" "8 Dec 12:00:00")]).
  vm_compute. reflexivity.
Defined.

(** ** Sizes in the report *)

Lemma digits_not_dash (s : string) :
  forallb_str is_dec s = true -> String.eqb s "-" = false.
Proof.
  intros H. apply String.eqb_neq. intros ->. vm_compute in H. discriminate.
Qed.

(** A size of decimal digits, no more of them than [int()] takes, below
    2^53 bytes is shown as its whole number of kilobytes, rounded down,
    followed by [KB]; a size under 1024 bytes is shown as [0KB]. *)
Theorem format_size_is_whole_kilobytes :
  forall s,
    forallb_str is_dec s = true -> s <> "" ->
    over_limit s = false ->
    (Z.of_N (digits_value s) < 2 ^ 53)%Z ->
    format_size s
    = Ok (py_str (Z.of_N (digits_value s) / 1024) ++ "KB").
Proof.
  intros s H Hne Hl Hlt. unfold format_size.
  rewrite (digits_not_dash s H), (py_int_digits s H Hne Hl). cbn [bind].
  set (v := Z.of_N (digits_value s)) in *.
  assert (Hv : (0 <= v)%Z) by (unfold v; lia).
  unfold true_div_1024. rewrite (Z.abs_eq v Hv).
  unfold round53. apply Z.ltb_lt in Hlt. rewrite Hlt.
  apply Z.ltb_lt in Hlt.
  assert (Hle : (2 ^ 1034 <=? v)%Z = false).
  { apply Z.leb_gt. eapply Z.lt_trans; [exact Hlt|].
    apply Z.pow_lt_mono_r; lia. }
  rewrite Hle. cbn [bind except_ValueError].
  unfold int_of_1024ths. f_equal. f_equal. f_equal.
  assert (Hs : (Z.sgn v * v = v)%Z).
  { destruct (Z.eq_dec v 0) as [->|Hnz]; [reflexivity|].
    rewrite Z.sgn_pos by lia. lia. }
  rewrite Hs. apply Z.quot_div_nonneg; lia.
Qed.

Lemma format_size_is_whole_kilobytes_witness :
  format_size "2048" = Ok "2KB".
Proof.
  apply (format_size_is_whole_kilobytes "2048").
  - reflexivity.
  - discriminate.
  - reflexivity.
  - vm_compute. reflexivity.
Defined.

(** ** Lookback counts: negative, and growing *)

Lemma split_ws_aux_one_word (s : string) :
  forallb_str (fun c => negb (is_space c)) s = true ->
  forall cur, split_ws_aux cur s
              = if nonempty (cur ++ s) then [cur ++ s] else [].
Proof.
  induction s as [|c s IH]; intros H cur.
  - simpl. now rewrite append_empty_r.
  - simpl in H. apply andb_true_iff in H. destruct H as [Hc Hs].
    apply negb_true_iff in Hc.
    cbn [split_ws_aux]. rewrite Hc, (IH Hs), append_assoc. reflexivity.
Qed.

Lemma digits_no_space (s : string) :
  forallb_str is_dec s = true ->
  forallb_str (fun c => negb (is_space c)) s = true.
Proof.
  induction s as [|c s IH]; [reflexivity|]. simpl.
  intros H. apply andb_true_iff in H. destruct H as [Hc Hs].
  destruct (is_dec_classes c Hc) as [-> _]. now apply IH.
Qed.

Lemma minus_digits_no_date (now : datetime) (d : string)
    (time_filter : option string) :
  forallb_str is_dec d = true ->
  parse_date_time_for_comparison now (String "-" d) time_filter = Ok None.
Proof.
  intros H. unfold parse_date_time_for_comparison. cbn [nonempty negb].
  unfold split_ws.
  rewrite (split_ws_aux_one_word (String "-" d))
    by (simpl; now rewrite (digits_no_space d H)).
  cbn [append nonempty date_parts].
  replace (isdigit (String "-" d)) with false by reflexivity.
  cbn [andb]. reflexivity.
Qed.

Lemma py_int_minus_digits (d : string) :
  forallb_str is_dec d = true -> d <> "" ->
  py_int (String "-" d)
  = if over_limit d then Raise ValueError
    else Ok (- Z.of_N (digits_value d))%Z.
Proof.
  intros H Hne. unfold py_int, over_limit.
  replace (lstrip (String "-" d)) with (String "-" d) by reflexivity.
  cbn [rstrip]. rewrite (rstrip_digits d H).
  apply nonempty_true in Hne. rewrite Hne. cbv zeta.
  unfold int_literal.
  rewrite (int_body_digits d H 0%N false)
    by (left; now apply nonempty_true).
  replace (digit_count (String "-" d)) with (digit_count d) by reflexivity.
  now rewrite (digit_count_digits d H).
Qed.

Lemma scan_empty_patterns (now : datetime) (date_filter : string)
    (lines : list string) :
  forall messages,
    scan now None (Some []) date_filter lines messages
    = scan now None None date_filter lines messages.
Proof.
  induction lines as [|line rest IH]; intros messages; [reflexivity|].
  cbn [scan passes_date_filter truthy_list bind].
  destruct (process_line date_filter messages line); cbn [bind];
    [apply IH | reflexivity].
Qed.

(** A negative lookback count filters nothing: with a date filter that
    is a minus sign and digits, of value at least 1, every line is
    processed, as with no date filter (blocked entries still get the
    filter string as their time). *)
Theorem negative_lookback_filters_nothing :
  forall (now : datetime) (d : string) (time_filter : option string)
         (lines : list string),
    forallb_str is_dec d = true ->
    (1 <= digits_value d)%N ->
    process_logs now lines (String "-" d) time_filter
    = scan now None None (String "-" d) lines [].
Proof.
  intros now d tf lines H Hv.
  assert (Hne : d <> "") by (intros ->; vm_compute in Hv; congruence).
  unfold process_logs. cbn [nonempty].
  rewrite (minus_digits_no_date now d tf H). cbn [bind is_some negb andb].
  unfold parse_date_filter. cbn [nonempty negb].
  rewrite (py_int_minus_digits d H Hne).
  destruct (over_limit d); cbn [bind except_ValueError]; [reflexivity|].
  replace (Z.to_nat (- Z.of_N (digits_value d) + 1)) with 0 by lia.
  cbn [lookback_patterns bind except_ValueError].
  apply scan_empty_patterns.
Qed.

Lemma negative_lookback_filters_nothing_witness :
  process_logs lookback_now lookback_log "-3" None
  = scan lookback_now None None "-3" lookback_log [].
Proof.
  apply (negative_lookback_filters_nothing lookback_now "3" None lookback_log).
  - reflexivity.
  - vm_compute. discriminate.
Defined.

Lemma lookback_patterns_prefix (now : datetime) (n : nat) :
  forall i k p,
    lookback_patterns now i (n + k) = Ok p ->
    lookback_patterns now i n = Ok (firstn n p).
Proof.
  induction n as [|n IH]; intros i k p H; [reflexivity|].
  cbn [Nat.add lookback_patterns] in *.
  destruct (Datetime.minus_days now i) as [d|e]; cbn [bind] in *;
    [|discriminate].
  destruct (lookback_patterns now (S i) (n + k)) as [rest|e] eqn:E;
    cbn [bind] in H; [|discriminate].
  injection H as <-. now rewrite (IH _ _ _ E).
Qed.

Lemma minus_days_raises_overflow (i : nat) :
  forall d e, Datetime.minus_days d i = Raise e -> e = OverflowError.
Proof.
  induction i as [|i IH]; intros d e H; cbn [Datetime.minus_days] in H;
    [discriminate|].
  destruct (Datetime.prev_day d) as [d'|e'] eqn:Ep; cbn [bind] in H.
  - now apply (IH d').
  - injection H as <-. unfold Datetime.prev_day in Ep.
    destruct (1 <? Datetime.day d)%Z; [discriminate|].
    destruct (1 <? Datetime.month d)%Z; [discriminate|].
    destruct (1 <? Datetime.year d)%Z; [discriminate|].
    now injection Ep as <-.
Qed.

Lemma lookback_patterns_raises_overflow (now : datetime) (n : nat) :
  forall i e, lookback_patterns now i n = Raise e -> e = OverflowError.
Proof.
  induction n as [|n IH]; intros i e H; cbn [lookback_patterns] in H;
    [discriminate|].
  destruct (Datetime.minus_days now i) as [d|e'] eqn:Ed; cbn [bind] in H.
  - destruct (lookback_patterns now (S i) n) as [rest|e'] eqn:E;
      cbn [bind] in H; [discriminate|].
    injection H as <-. now apply (IH (S i)).
  - injection H as <-. now apply (minus_days_raises_overflow i now).
Qed.

Lemma parse_date_filter_digits (now : datetime) (s : string)
    (time_filter : option string) :
  forallb_str is_dec s = true -> s <> "" ->
  parse_date_filter now s time_filter
  = if over_limit s then Ok None
    else (patterns <-
            lookback_patterns now 0 (S (N.to_nat (digits_value s))) ;;
          Ok (Some patterns)).
Proof.
  intros H Hne. unfold parse_date_filter.
  pose proof Hne as Hn. apply nonempty_true in Hn. rewrite Hn. cbn [negb].
  rewrite (py_int_digits_spec s H Hne).
  destruct (over_limit s); [reflexivity|]. cbn [bind].
  replace (Z.to_nat (Z.of_N (digits_value s) + 1))
    with (S (N.to_nat (digits_value s))) by lia.
  destruct (lookback_patterns now 0 (S (N.to_nat (digits_value s))))
    as [p|e] eqn:E; [reflexivity|].
  now rewrite (lookback_patterns_raises_overflow _ _ _ _ E).
Qed.

Lemma existsb_firstn {A : Type} (f : A -> bool) (n : nat) (l : list A) :
  existsb f (firstn n l) = true -> existsb f l = true.
Proof.
  revert l; induction n as [|n IH]; intros l; [discriminate|].
  destruct l as [|x l]; [discriminate|]. simpl.
  intros H. apply orb_true_iff in H. apply orb_true_iff.
  destruct H as [H|H]; auto.
Qed.

(** A larger lookback count never drops a line: when the patterns of the
    larger count can be computed, so can those of a smaller one written
    in no more digits than [int()] takes, and every line that the smaller
    count lets through the larger one lets through too. *)
Theorem larger_lookback_keeps_more :
  forall (now : datetime) (s1 s2 : string) (p2 : list string),
    forallb_str is_dec s1 = true -> s1 <> "" ->
    over_limit s1 = false ->
    forallb_str is_dec s2 = true -> s2 <> "" ->
    (digits_value s1 <= digits_value s2)%N ->
    parse_date_filter now s2 None = Ok (Some p2) ->
    exists p1,
      parse_date_filter now s1 None = Ok (Some p1)
      /\ forall line,
           passes_date_filter now None (Some p1) line = Ok true ->
           passes_date_filter now None (Some p2) line = Ok true.
Proof.
  intros now s1 s2 p2 H1 Hn1 Hl1 H2 Hn2 Hle Hp2.
  rewrite (parse_date_filter_digits now s2 None H2 Hn2) in Hp2.
  destruct (over_limit s2); [discriminate|].
  rewrite (parse_date_filter_digits now s1 None H1 Hn1), Hl1.
  set (n1 := N.to_nat (digits_value s1)) in *.
  set (n2 := N.to_nat (digits_value s2)) in *.
  destruct (lookback_patterns now 0 (S n2)) as [p|e] eqn:E;
    cbn [bind] in Hp2; [|discriminate].
  injection Hp2 as ->.
  assert (E1 : lookback_patterns now 0 (S n1) = Ok (firstn (S n1) p2)).
  { apply (lookback_patterns_prefix now (S n1) 0 (n2 - n1)).
    replace (S n1 + (n2 - n1)) with (S n2) by (unfold n1, n2; lia).
    exact E. }
  rewrite E1. cbn [bind]. eexists. split; [reflexivity|].
  intros line. cbn [passes_date_filter].
  assert (Hp2 : exists x l, p2 = x :: l).
  { cbn [lookback_patterns] in E.
    destruct (Datetime.minus_days now 0); cbn [bind] in E; [|discriminate].
    destruct (lookback_patterns now 1 n2); cbn [bind] in E; [|discriminate].
    injection E as <-. eauto. }
  destruct Hp2 as (x & l & ->). cbn [firstn truthy_list].
  intros Hk. injection Hk as Hk. f_equal.
  apply (existsb_firstn _ (S n1) (x :: l)). exact Hk.
Qed.

Lemma larger_lookback_keeps_more_witness :
  exists p1,
    parse_date_filter lookback_now "1" None = Ok (Some p1)
    /\ forall line,
         passes_date_filter lookback_now None (Some p1) line = Ok true ->
         passes_date_filter lookback_now None
           (Some ["Dec 10"; "Dec  9"; "Dec  8"; "Dec  7"]) line = Ok true.
Proof.
  apply (larger_lookback_keeps_more lookback_now "1" "3").
  - reflexivity.
  - discriminate.
  - reflexivity.
  - reflexivity.
  - discriminate.
  - vm_compute. discriminate.
  - vm_compute. reflexivity.
Defined.

(** ** When the threshold filter cannot raise *)

Lemma digit_val_le_9 (c : ascii) : is_dec c = true -> (digit_val c <= 9)%N.
Proof. each_char c; vm_compute; congruence. Qed.

Lemma digits_value_aux_bound (s : string) :
  forallb_str is_dec s = true ->
  forall acc,
    (digits_value_aux acc s < (acc + 1) * 10 ^ N.of_nat (String.length s))%N.
Proof.
  induction s as [|c s IH]; intros H acc.
  - simpl. lia.
  - simpl in H. apply andb_true_iff in H. destruct H as [Hc Hs].
    cbn [digits_value_aux String.length].
    pose proof (digit_val_le_9 c Hc) as H9.
    eapply N.lt_le_trans; [apply (IH Hs)|].
    rewrite Nat2N.inj_succ, N.pow_succ_r'. nia.
Qed.

Lemma two_digits_below_100 (s : string) :
  forallb_str is_dec s = true -> String.length s = 2 ->
  (digits_value s < 100)%N.
Proof.
  intros H Hl. unfold digits_value.
  pose proof (digits_value_aux_bound s H 0%N) as B. rewrite Hl in B.
  exact B.
Qed.

Lemma line_datetime_re_groups (prev : option ascii)
    (s month d hh mi ss : string) :
  line_datetime_re prev s = Some (month, d, hh, mi, ss) ->
  (forallb_str is_dec d = true /\ d <> "")
  /\ (forallb_str is_dec hh = true /\ String.length hh = 2)
  /\ (forallb_str is_dec mi = true /\ String.length mi = 2)
  /\ (forallb_str is_dec ss = true /\ String.length ss = 2).
Proof.
  intros H. unfold line_datetime_re in H.
  apply rep_where in H. destruct H as (m1 & s1 & _ & _ & _ & _ & H).
  apply rep_where in H. destruct H as (m2 & s2 & _ & _ & _ & _ & H).
  apply rep_where in H. destruct H as (m3 & s3 & _ & _ & _ & _ & H).
  apply rep_where in H. destruct H as (dd & s4 & _ & Hd & Hdl & _ & H).
  apply rep_where in H. destruct H as (m5 & s5 & _ & _ & _ & _ & H).
  apply rep_where in H. destruct H as (h & s6 & _ & Hh & Hh1 & Hh2 & H).
  apply lit_inv in H. destruct H as (s7 & _ & H).
  apply rep_where in H. destruct H as (m & s8 & _ & Hm & Hm1 & Hm2 & H).
  apply lit_inv in H. destruct H as (s9 & _ & H).
  apply rep_where in H. destruct H as (sc & s10 & _ & Hs & Hs1 & Hs2 & H).
  injection H as _ <- <- <- <-. simpl in Hh2, Hm2, Hs2.
  repeat split; auto; try lia.
  destruct dd; [simpl in Hdl; lia | discriminate].
Qed.

Lemma month_abbr_parses (month : string) :
  In month Datetime.month_abbrs ->
  exists m, Datetime.strptime_b_month month = Ok m
            /\ Datetime.within 1 12 m = true.
Proof.
  intros H. unfold Datetime.month_abbrs in H.
  repeat (destruct H as [<-|H]; [eexists; split; vm_compute; reflexivity|]).
  destruct H.
Qed.

Lemma new_caught (y m d h mi s : Z) :
  forallb Datetime.fits_int [y; m; d; h; mi; s] = true ->
  exists o,
    except_ValueError
      (dt <- Datetime.new y m d h mi s ;; Ok (Some dt)) (Ok None) = Ok o.
Proof.
  intros H. unfold Datetime.new. rewrite H. cbn [negb].
  destruct (Datetime.within 1 9999 y && Datetime.within 1 12 m
            && Datetime.within 1 (Datetime.days_in_month y m) d
            && Datetime.within 0 23 h && Datetime.within 0 59 mi
            && Datetime.within 0 59 s); eexists; reflexivity.
Qed.

Lemma fits_int_small (z : Z) :
  (0 <= z <= 2147483647)%Z -> Datetime.fits_int z = true.
Proof.
  intros H. unfold Datetime.fits_int, Datetime.within.
  apply andb_true_iff. split; apply Z.leb_le; lia.
Qed.

(** With a threshold active, a line is handled without an exception
    when it has no text of the shape of a timestamp, and when the first
    such text has one of the twelve month names and a day below 2^31
    written in no more digits than [int()] takes: it is then either kept
    or skipped. *)
Theorem threshold_filter_returns_on_month_names :
  forall (now start : datetime) (date_patterns : option (list string))
         (line : string),
    (0 <= Datetime.year now <= 2147483647)%Z ->
    match search line_datetime_re line with
    | None => True
    | Some (month, d, _, _, _) =>
        In month Datetime.month_abbrs /\ (digits_value d <= 2147483647)%N
        /\ over_limit d = false
    end ->
    exists keep,
      passes_date_filter now (Some start) date_patterns line = Ok keep.
Proof.
  intros now start dp line Hy Hm.
  cbn [passes_date_filter should_include_log_line].
  unfold parse_timestamp_from_line.
  destruct (search line_datetime_re line)
    as [[[[[month d] hh] mi] ss]|] eqn:E; [|eexists; reflexivity].
  destruct Hm as (Hin & Hd & Hdl).
  apply search_inv in E. destruct E as (prev & s & E).
  apply line_datetime_re_groups in E.
  destruct E as ((Hd1 & Hd2) & (Hh1 & Hh2) & (Hm1 & Hm2) & (Hs1 & Hs2)).
  rewrite (py_int_digits d Hd1 Hd2 Hdl).
  rewrite (py_int_digits hh Hh1)
    by ((intros ->; discriminate) || (apply over_limit_short; lia)).
  rewrite (py_int_digits mi Hm1)
    by ((intros ->; discriminate) || (apply over_limit_short; lia)).
  rewrite (py_int_digits ss Hs1)
    by ((intros ->; discriminate) || (apply over_limit_short; lia)).
  cbn [bind].
  destruct (month_abbr_parses month Hin) as (m & -> & Hm12). cbn [bind].
  pose proof (two_digits_below_100 hh Hh1 Hh2).
  pose proof (two_digits_below_100 mi Hm1 Hm2).
  pose proof (two_digits_below_100 ss Hs1 Hs2).
  unfold Datetime.within in Hm12. apply andb_true_iff in Hm12.
  destruct Hm12 as [Hlo Hhi]. apply Z.leb_le in Hlo, Hhi.
  destruct (new_caught (Datetime.year now) m (Z.of_N (digits_value d))
              (Z.of_N (digits_value hh)) (Z.of_N (digits_value mi))
              (Z.of_N (digits_value ss))) as (o & Ho).
  { cbn [forallb]. rewrite !fits_int_small; [reflexivity | lia ..]. }
  rewrite Ho. cbn [bind]. destruct o; eexists; reflexivity.
Qed.

Lemma threshold_filter_returns_on_month_names_witness :
  exists keep,
    passes_date_filter spec_example_now
      (Some (Datetime.mkdt 2025 12 5 0 0 0)) None sent_line = Ok keep.
Proof.
  apply (threshold_filter_returns_on_month_names spec_example_now
           (Datetime.mkdt 2025 12 5 0 0 0) None sent_line).
  - vm_compute. split; discriminate.
  - vm_compute. split; [tauto | split; [discriminate | reflexivity]].
Defined.

(** ** Calendar dates as the date filter *)

Lemma split_ws_aux_word_space (w rest : string) :
  forallb_str (fun c => negb (is_space c)) w = true ->
  forall cur,
    split_ws_aux cur (w ++ String " " rest)
    = List.app (if nonempty (cur ++ w) then [cur ++ w] else [])
               (split_ws_aux "" rest).
Proof.
  induction w as [|c w IH]; intros H cur.
  - simpl. now rewrite append_empty_r.
  - simpl in H. apply andb_true_iff in H. destruct H as [Hc Hw].
    apply negb_true_iff in Hc. simpl append.
    cbn [split_ws_aux]. rewrite Hc, (IH Hw), append_assoc. reflexivity.
Qed.

Lemma month_abbr_word (month : string) :
  In month Datetime.month_abbrs ->
  forallb_str (fun c => negb (is_space c)) month = true
  /\ nonempty month = true
  /\ isdigit month = false
  /\ match_start month_word_re month = Some tt.
Proof.
  intros H. unfold Datetime.month_abbrs in H.
  repeat (destruct H as [<-|H]; [repeat split; vm_compute; reflexivity|]).
  destruct H.
Qed.

Section DateWords.
Variable d : string.
Variable month : string.
Hypothesis Hd : forallb_str is_dec d = true.
Hypothesis Hne : d <> "".
Hypothesis Hlen : String.length d <= 2.
Hypothesis Hmonth : In month Datetime.month_abbrs.

Let v : Z := Z.of_N (digits_value d).

Lemma day_word_parts (rest : list string) (np : option Z)
    (mp : option string) :
  date_parts (d :: rest) np mp = date_parts rest (Some v) mp.
Proof.
  cbn [date_parts]. rewrite (isdigit_digits d Hd Hne).
  pose proof (over_limit_short d ltac:(lia)) as Hl.
  apply Nat.leb_le in Hlen. rewrite Hlen. cbn [andb].
  now rewrite (py_int_digits d Hd Hne Hl).
Qed.

Lemma month_word_parts (rest : list string) (np : option Z)
    (mp : option string) :
  date_parts (month :: rest) np mp = date_parts rest np (Some month).
Proof.
  destruct (month_abbr_word month Hmonth) as (_ & _ & Hdig & Hre).
  cbn [date_parts]. now rewrite Hdig, Hre.
Qed.

Lemma split_day_month : split_ws (d ++ " " ++ month) = [d; month].
Proof.
  destruct (month_abbr_word month Hmonth) as (Hsp & Hn & _ & _).
  unfold split_ws. simpl append.
  rewrite (split_ws_aux_word_space d month (digits_no_space d Hd)).
  rewrite (split_ws_aux_one_word month Hsp). simpl append.
  rewrite Hn. apply nonempty_true in Hne. now rewrite Hne.
Qed.

Lemma split_month_day : split_ws (month ++ " " ++ d) = [month; d].
Proof.
  destruct (month_abbr_word month Hmonth) as (Hsp & Hn & _ & _).
  unfold split_ws. simpl append.
  rewrite (split_ws_aux_word_space month d Hsp).
  rewrite (split_ws_aux_one_word d (digits_no_space d Hd)). simpl append.
  rewrite Hn. apply nonempty_true in Hne. now rewrite Hne.
Qed.

Lemma nonempty_app_l (a b : string) :
  nonempty a = true -> nonempty (a ++ b) = true.
Proof. now destruct a. Qed.

End DateWords.

Lemma nonempty_app_r (a b : string) :
  nonempty b = true -> nonempty (a ++ b) = true.
Proof. destruct a; [simpl; auto | reflexivity]. Qed.

(** The day and the month of a date filter may come in either order:
    ["7 Dec"] and ["Dec 7"] give the same start datetime, for every time
    filter, and raise or fail alike. *)
Theorem date_words_in_either_order :
  forall (now : datetime) (d month : string) (time_filter : option string),
    forallb_str is_dec d = true -> d <> "" -> String.length d <= 2 ->
    In month Datetime.month_abbrs ->
    parse_date_time_for_comparison now (month ++ " " ++ d) time_filter
    = parse_date_time_for_comparison now (d ++ " " ++ month) time_filter.
Proof.
  intros now d month tf Hd Hne Hlen Hm.
  destruct (month_abbr_word month Hm) as (_ & Hn & _ & _).
  unfold parse_date_time_for_comparison.
  rewrite (nonempty_app_l month _ Hn).
  rewrite (nonempty_app_l d _ (proj2 (nonempty_true d) Hne)).
  rewrite (split_day_month d month Hd Hne Hm),
          (split_month_day d month Hd Hne Hm).
  rewrite (month_word_parts month Hm), !(day_word_parts d Hd Hne Hlen),
          (month_word_parts month Hm).
  reflexivity.
Qed.

Lemma date_words_in_either_order_witness :
  parse_date_time_for_comparison spec_example_now ("Dec" ++ " " ++ "7")
    (Some "23:46:06")
  = parse_date_time_for_comparison spec_example_now ("7" ++ " " ++ "Dec")
      (Some "23:46:06").
Proof.
  apply (date_words_in_either_order spec_example_now "7" "Dec"
           (Some "23:46:06")).
  - reflexivity.
  - discriminate.
  - simpl. lia.
  - vm_compute. tauto.
Defined.

Lemma rstrip_app (a t : string) :
  nonempty (rstrip t) = true -> rstrip (a ++ t) = a ++ rstrip t.
Proof.
  intros H. induction a as [|c a IH]; [reflexivity|].
  simpl append. cbn [rstrip]. rewrite IH.
  now rewrite (nonempty_app_r a (rstrip t) H).
Qed.

Lemma int_body_stops_at_space (d t : string) :
  forall acc b, forallb_str is_dec d = true ->
    int_body acc b (d ++ String " " t) = None.
Proof.
  induction d as [|c d IH]; intros acc b H; [reflexivity|].
  simpl in H. apply andb_true_iff in H. destruct H as [Hc Hd].
  simpl append. cbn [int_body]. rewrite Hc. now apply IH.
Qed.

Lemma py_int_day_month_raises (d month : string) :
  forallb_str is_dec d = true -> d <> "" ->
  In month Datetime.month_abbrs ->
  py_int (d ++ " " ++ month) = Raise ValueError.
Proof.
  intros Hd Hne Hm. unfold py_int. cbv zeta.
  assert (Hr : rstrip (String " " month) = String " " month).
  { unfold Datetime.month_abbrs in Hm.
    repeat (destruct Hm as [<-|Hm]; [reflexivity|]). destruct Hm. }
  destruct d as [|c d]; [congruence|].
  simpl in Hd. apply andb_true_iff in Hd. destruct Hd as [Hc Hd].
  simpl append. rewrite (lstrip_digits c _ Hc).
  change (String c (d ++ String " " month))
    with (String c d ++ String " " month).
  rewrite rstrip_app by (now rewrite Hr). rewrite Hr.
  assert (Hb : int_body 0 false (String c d ++ String " " month) = None)
    by (apply int_body_stops_at_space; simpl; now rewrite Hc, Hd).
  simpl append in *.
  each_char c; vm_compute in Hc; try discriminate;
    unfold int_literal; rewrite Hb; reflexivity.
Qed.

Lemma digits_value_short (d : string) :
  forallb_str is_dec d = true -> String.length d <= 2 ->
  (digits_value d < 100)%N.
Proof.
  intros H Hl. unfold digits_value.
  pose proof (digits_value_aux_bound d H 0%N) as B.
  eapply N.lt_le_trans; [exact B|].
  rewrite N.add_0_l, N.mul_1_l.
  change 100%N with (10 ^ 2)%N. apply N.pow_le_mono_r; lia.
Qed.

(** A date filter made of a day of one or two digits and a month name,
    without a time filter, starts the report at midnight of that day of
    the current year when the month has such a day; when it has none (a
    31 February, a day 0) the filter is dropped and every line is
    processed. *)
Theorem day_month_filter_starts_at_midnight_or_is_dropped :
  forall (now : datetime) (d month : string) (m : Z) (lines : list string),
    forallb_str is_dec d = true -> d <> "" -> String.length d <= 2 ->
    In month Datetime.month_abbrs ->
    Datetime.strptime_b_month month = Ok m ->
    Datetime.within 1 9999 (Datetime.year now) = true ->
    process_logs now lines (d ++ " " ++ month) None
    = scan now
        (if Datetime.within 1 (Datetime.days_in_month (Datetime.year now) m)
                            (Z.of_N (digits_value d))
         then Some (Datetime.mkdt (Datetime.year now) m
                                  (Z.of_N (digits_value d)) 0 0 0)
         else None)
        None (d ++ " " ++ month) lines [].
Proof.
  intros now d month m lines Hd Hne Hlen Hm Hsp Hy.
  destruct (month_abbr_word month Hm) as (_ & Hn & _ & _).
  destruct (month_abbr_parses month Hm) as (m' & Hsp' & Hm12).
  rewrite Hsp in Hsp'. injection Hsp' as <-.
  pose proof (digits_value_short d Hd Hlen) as Hv.
  set (v := Z.of_N (digits_value d)) in *.
  set (df := d ++ " " ++ month).
  assert (Hdf : nonempty df = true)
    by (apply nonempty_app_l; now apply nonempty_true).
  assert (Hfilter : parse_date_filter now df None = Ok None).
  { unfold parse_date_filter. rewrite Hdf. cbn [negb]. unfold df.
    now rewrite (py_int_day_month_raises d month Hd Hne Hm). }
  unfold process_logs. rewrite Hdf.
  unfold parse_date_time_for_comparison. rewrite Hdf. cbn [negb]. unfold df.
  rewrite (split_day_month d month Hd Hne Hm).
  rewrite (day_word_parts d Hd Hne Hlen), (month_word_parts month Hm).
  cbn [date_parts bind]. fold v. rewrite Hn, andb_true_r, negb_involutive.
  destruct (v =? 0)%Z eqn:Ev.
  - apply Z.eqb_eq in Ev. rewrite Ev.
    change (Datetime.within 1
              (Datetime.days_in_month (Datetime.year now) m) 0) with false.
    cbn [bind is_some negb andb]. fold df. now rewrite Hfilter.
  - rewrite Hsp. cbn [bind truthy].
    unfold Datetime.new.
    assert (Hfit : forallb Datetime.fits_int
                     [Datetime.year now; m; v; 0; 0; 0]%Z = true).
    { unfold Datetime.within in Hy, Hm12.
      apply andb_true_iff in Hy, Hm12.
      destruct Hy as [Hy1 Hy2], Hm12 as [Hm1 Hm2].
      apply Z.leb_le in Hy1, Hy2, Hm1, Hm2.
      cbn [forallb]. rewrite !fits_int_small; [reflexivity | unfold v; lia ..]. }
    rewrite Hfit, Hy, Hm12. cbn [negb andb].
    replace (Datetime.within 0 23 0) with true by reflexivity.
    replace (Datetime.within 0 59 0) with true by reflexivity.
    rewrite !andb_true_r.
    destruct (Datetime.within 1
                (Datetime.days_in_month (Datetime.year now) m) v);
      cbn [bind except_ValueError is_some negb andb]; [reflexivity|].
    fold df. now rewrite Hfilter.
Qed.

Lemma day_month_filter_starts_at_midnight_or_is_dropped_witness :
  process_logs spec_example_now [from_line; sent_line] ("31" ++ " " ++ "Feb")
               None
  = scan spec_example_now None None ("31" ++ " " ++ "Feb")
         [from_line; sent_line] [].
Proof.
  apply (day_month_filter_starts_at_midnight_or_is_dropped spec_example_now
           "31" "Feb" 2 [from_line; sent_line]).
  - reflexivity.
  - discriminate.
  - simpl. lia.
  - vm_compute. tauto.
  - reflexivity.
  - reflexivity.
Defined.

(** ** A later threshold keeps fewer lines *)

Lemma lex_ge_trans (a : list Z) :
  forall b c,
    List.length a = List.length b -> List.length b = List.length c ->
    Datetime.lex_ge a b = true -> Datetime.lex_ge b c = true ->
    Datetime.lex_ge a c = true.
Proof.
  induction a as [|x a IH]; intros [|y b] [|z c] Hab Hbc H1 H2;
    try discriminate; try reflexivity.
  cbn [Datetime.lex_ge] in *. simpl in Hab, Hbc.
  apply orb_true_iff in H1, H2. apply orb_true_iff.
  destruct H1 as [H1|H1], H2 as [H2|H2].
  - left. apply Z.ltb_lt in H1, H2. apply Z.ltb_lt. lia.
  - apply andb_true_iff in H2. destruct H2 as [E _].
    apply Z.eqb_eq in E. subst z. now left.
  - apply andb_true_iff in H1. destruct H1 as [E _].
    apply Z.eqb_eq in E. subst y. now left.
  - apply andb_true_iff in H1, H2. destruct H1 as [E1 G1], H2 as [E2 G2].
    apply Z.eqb_eq in E1, E2. subst. right.
    rewrite Z.eqb_refl. cbn [andb]. apply (IH b c); auto.
Qed.

(** Moving the threshold later never lets a further line through: a
    line kept under a start datetime is kept under every earlier one. *)
Theorem earlier_threshold_keeps_more :
  forall (now earlier later : datetime)
         (date_patterns : option (list string)) (line : string),
    Datetime.ge later earlier = true ->
    passes_date_filter now (Some later) date_patterns line = Ok true ->
    passes_date_filter now (Some earlier) date_patterns line = Ok true.
Proof.
  intros now earlier later dp line Hge.
  cbn [passes_date_filter should_include_log_line].
  destruct (parse_timestamp_from_line now line) as [[dt|]|e]; cbn [bind];
    try discriminate.
  intros H. injection H as H. f_equal.
  unfold Datetime.ge in *.
  apply (lex_ge_trans _ (Datetime.as_list later)); auto.
Qed.

Lemma earlier_threshold_keeps_more_witness :
  passes_date_filter spec_example_now
    (Some (Datetime.mkdt 2025 12 4 0 0 0)) None sent_line = Ok true.
Proof.
  apply (earlier_threshold_keeps_more spec_example_now
           (Datetime.mkdt 2025 12 4 0 0 0)
           (Datetime.mkdt 2025 12 5 10 0 0) None sent_line).
  - reflexivity.
  - vm_compute. reflexivity.
Defined.

(** ** A syslog timestamp at the head of a line *)

Section Take.
Context {R : Type}.
Variable cls : ascii -> bool.
Variable lo : nat.
Variable hi : option nat.
Variable k : string -> cont (R := R).

(** A repetition takes a run [m] of the class that cannot be extended,
    when the rest of the pattern matches after it. *)
Lemma rep_go_take (m : string) :
  forall n acc prev s' r,
    forallb_str cls m = true ->
    lo <= n + String.length m ->
    within_hi hi (n + String.length m) ->
    hi = Some (n + String.length m) \/ stops cls s' ->
    k (acc ++ m) (last_of prev m) s' = Some r ->
    rep_go cls lo hi n acc k prev (m ++ s') = Some r.
Proof.
  induction m as [|a m IH]; intros n acc prev s' r Hm Hlo Hhi Hstop Hk.
  - simpl in *. rewrite Nat.add_0_r in *. rewrite append_empty_r in Hk.
    apply Nat.leb_le in Hlo.
    destruct s' as [|b s']; cbn [rep_go]; rewrite Hlo; [exact Hk|].
    destruct Hstop as [->|Hb].
    + cbn [below]. rewrite Nat.ltb_irrefl, andb_false_r. exact Hk.
    + simpl in Hb. rewrite Hb. exact Hk.
  - simpl in Hm. apply andb_true_iff in Hm. destruct Hm as [Ha Hm].
    simpl String.length in *. simpl append. cbn [rep_go]. rewrite Ha.
    assert (Hb : below hi n = true).
    { destruct hi as [h|]; [|reflexivity]. simpl in Hhi |- *.
      apply Nat.ltb_lt. lia. }
    rewrite Hb. cbn [andb].
    rewrite (IH (S n) (acc ++ String a "") (Some a) s' r); auto.
    + lia.
    + now replace (S n + String.length m) with (n + S (String.length m)) by lia.
    + now replace (S n + String.length m) with (n + S (String.length m)) by lia.
    + now rewrite append_assoc.
Qed.

Lemma rep_take (m : string) (prev : option ascii) (s' : string) (r : R) :
  forallb_str cls m = true ->
  lo <= String.length m ->
  within_hi hi (String.length m) ->
  hi = Some (String.length m) \/ stops cls s' ->
  k m (last_of prev m) s' = Some r ->
  rep cls lo hi k prev (m ++ s') = Some r.
Proof. intros. unfold rep. now apply rep_go_take. Qed.

End Take.

Lemma is_space_not_dec (c : ascii) : is_space c = true -> is_dec c = false.
Proof. each_char c; vm_compute; congruence. Qed.

Lemma stops_space_before_digits (d rest : string) :
  forallb_str is_dec d = true -> d <> "" -> stops is_space (d ++ rest).
Proof.
  intros H Hne. destruct d as [|c d]; [congruence|]. simpl in *.
  apply andb_true_iff in H. now apply is_dec_classes.
Qed.

Lemma stops_dec_before_spaces (sp rest : string) :
  forallb_str is_space sp = true -> sp <> "" -> stops is_dec (sp ++ rest).
Proof.
  intros H Hne. destruct sp as [|c sp]; [congruence|]. simpl in *.
  apply andb_true_iff in H. now apply is_space_not_dec.
Qed.

Lemma length_pos (s : string) : s <> "" -> 1 <= String.length s.
Proof. destruct s; [congruence | simpl; lia]. Qed.

(** A line that starts with a month word, whitespace, the digits of a
    day (no more of them than [int()] takes), whitespace and a time of
    day has that timestamp stored day first, with the day as a number:
    however many spaces pad the day, and whether or not it has a leading
    zero, [Dec  5], [Dec 5] and [Dec 05] all give [5 Dec]. *)
Theorem leading_timestamp_is_rendered_day_first :
  forall (c1 c2 c3 : ascii) (sp1 d sp2 hh mi ss rest : string),
    is_upper_az c1 = true -> is_lower_az c2 = true -> is_lower_az c3 = true ->
    forallb_str is_space sp1 = true -> sp1 <> "" ->
    forallb_str is_dec d = true -> d <> "" -> over_limit d = false ->
    forallb_str is_space sp2 = true -> sp2 <> "" ->
    forallb_str is_dec hh = true -> String.length hh = 2 ->
    forallb_str is_dec mi = true -> String.length mi = 2 ->
    forallb_str is_dec ss = true -> String.length ss = 2 ->
    extract_timestamp
      (String c1 (String c2 (String c3 "")) ++ sp1 ++ d ++ sp2
       ++ hh ++ ":" ++ mi ++ ":" ++ ss ++ rest)
    = Ok (Some (py_str (Z.of_N (digits_value d)) ++ " "
                ++ String c1 (String c2 (String c3 "")) ++ " "
                ++ hh ++ ":" ++ mi ++ ":" ++ ss)).
Proof.
  intros c1 c2 c3 sp1 d sp2 hh mi ss rest Hc1 Hc2 Hc3 Hsp1 Hn1 Hd Hnd Hdl
         Hsp2 Hn2 Hhh Lhh Hmi Lmi Hss Lss.
  rewrite extract_timestamp_spec. unfold timestamp_of, day_too_long.
  assert (E : search timestamp_re
                (String c1 (String c2 (String c3 "")) ++ sp1 ++ d ++ sp2
                 ++ hh ++ ":" ++ mi ++ ":" ++ ss ++ rest)
              = Some (String c1 (String c2 (String c3 "")), d,
                      hh ++ ":" ++ mi ++ ":" ++ ss)).
  { unfold search.
    assert (P : timestamp_re None
                  (String c1 (String c2 (String c3 "")) ++ sp1 ++ d ++ sp2
                   ++ hh ++ ":" ++ mi ++ ":" ++ ss ++ rest)
                = Some (String c1 (String c2 (String c3 "")), d,
                        hh ++ ":" ++ mi ++ ":" ++ ss)).
    { unfold timestamp_re.
      apply (rep_take _ _ _ _ (String c1 ""));
        [simpl; now rewrite Hc1 | simpl; lia | simpl; lia | now left |].
      apply (rep_take _ _ _ _ (String c2 (String c3 "")));
        [simpl; now rewrite Hc2, Hc3 | simpl; lia | simpl; lia | now left |].
      apply rep_take;
        [exact Hsp1 | now apply length_pos | exact I
         | right; now apply stops_space_before_digits |].
      apply rep_take;
        [exact Hd | now apply length_pos | exact I
         | right; now apply stops_dec_before_spaces |].
      apply rep_take;
        [exact Hsp2 | now apply length_pos | exact I
         | right; apply stops_space_before_digits; auto;
           intros ->; discriminate |].
      apply rep_take;
        [exact Hhh | lia | simpl; lia | left; now rewrite Lhh |].
      simpl append. cbn [lit]. rewrite Ascii.eqb_refl.
      apply rep_take;
        [exact Hmi | lia | simpl; lia | left; now rewrite Lmi |].
      simpl append. cbn [lit]. rewrite Ascii.eqb_refl.
      apply rep_take;
        [exact Hss | lia | simpl; lia | left; now rewrite Lss |].
      reflexivity. }
    simpl append in *. cbn [search_from]. now rewrite P. }
  now rewrite E, Hdl.
Qed.

Lemma leading_timestamp_is_rendered_day_first_witness :
  extract_timestamp
    ("Dec" ++ "  " ++ "05" ++ " " ++ "10" ++ ":" ++ "00" ++ ":" ++ "09"
     ++ " mail postfix/qmgr[3]: ABCDEF1234: from=<>")
  = Ok (Some (py_str (Z.of_N (digits_value "05")) ++ " " ++ "Dec" ++ " "
              ++ "10" ++ ":" ++ "00" ++ ":" ++ "09")).
Proof.
  apply (leading_timestamp_is_rendered_day_first "D" "e" "c" "  " "05" " "
           "10" "00" "09" " mail postfix/qmgr[3]: ABCDEF1234: from=<>");
    solve [reflexivity | discriminate].
Defined.
